(** * Gate alarm controller (controller/src/main.cpp)

    A shallow embedding of the Arduino sketch that watches a gate sensor,
    sounds a buzzer while the gate is open, and lets the user suspend the
    alarm from a 4x3 keypad.

    The sketch is a set of global variables mutated by [void] functions that
    also talk to the hardware (pins, LCD, serial port) and read the
    millisecond clock.  It is embedded as a state monad over the globals and
    the clock that also collects the hardware calls an action makes.

    Target: ATmega328 (Arduino Nano), so [int] is 16 bits and [long] is 32
    bits.  Unsigned arithmetic wraps; signed [long] arithmetic is modelled as
    two's-complement wrap-around as well (what avr-gcc emits), although C++
    leaves signed overflow undefined. *)

From Stdlib Require Import ZArith List String Ascii Bool Lia DecimalString.
Import ListNotations.
Local Open Scope Z_scope.

(** ** Machine integers *)

Module Word.

(** [unsigned long]: 32 bits, wraps. *)
Definition ulong (z : Z) : Z := z mod 2 ^ 32.

(** [long]: 32 bits, two's complement. *)
Definition slong (z : Z) : Z := (z + 2 ^ 31) mod 2 ^ 32 - 2 ^ 31.

(** [unsigned int]: 16 bits, wraps. *)
Definition uint (z : Z) : Z := z mod 2 ^ 16.

(** [String(n)]: the decimal text of an integer. *)
Definition decimal (z : Z) : string := NilZero.string_of_int (Z.to_int z).

End Word.
Import Word.

Arguments ulong : simpl never.
Arguments slong : simpl never.
Arguments uint : simpl never.
Arguments decimal : simpl never.

(** ** Constants (the sketch's [#define]s) *)

Definition LCD_WIDTH : Z := 16.
Definition LCD_HEIGHT : Z := 2.

Definition SECONDS_PER_MINUTE : Z := 60.
Definition MILLIS_PER_SECOND : Z := 1000.
(* ((unsigned long) MILLIS_PER_SECOND * SECONDS_PER_MINUTE) *)
Definition MILLIS_PER_MINUTE : Z := ulong (ulong MILLIS_PER_SECOND * SECONDS_PER_MINUTE).

Definition DEBOUNCE_DELAY : Z := 50.

Definition MAGNET_SWITCH_PIN : Z := 2.
Definition ALARM_LED_PIN : Z := 11.
Definition ALARM_BUZZER_PIN : Z := 10.
Definition HEARTBEAT_LED_PIN : Z := 12.

Definition SUSPEND_OFF : Z := 0.
Definition SUSPEND_INFINITE : Z := -1.

Definition DIGIT_ENTRY_BASE : Z := 10.

Definition HASH_KEY : Z := -1.
Definition STAR_KEY : Z := -2.
Definition INVALID_KEY : Z := -9.

Definition DISPLAY_UPDATE_DELTA : Z := 250.

Definition ALARM_BUZZER_ON_TIME : Z := 1500.
Definition ALARM_BUZZER_OFF_TIME : Z := 1000.
Definition ALARM_BUZZER_CYCLE_TIME : Z := ALARM_BUZZER_ON_TIME + ALARM_BUZZER_OFF_TIME.

Definition ALARM_LED_ON_TIME : Z := 250.
Definition ALARM_LED_OFF_TIME : Z := 250.
Definition ALARM_LED_CYCLE_TIME : Z := ALARM_LED_ON_TIME + ALARM_LED_OFF_TIME.

Definition HEARTBEAT_LED_ON_TIME : Z := 100.
Definition HEARTBEAT_LED_OFF_TIME : Z := 8000.
Definition HEARTBEAT_LED_CYCLE_TIME : Z := HEARTBEAT_LED_ON_TIME + HEARTBEAT_LED_OFF_TIME.

Definition LCD_BACKLIGHT_TIMEOUT : Z := 10000.

(* Arduino.h *)
Definition HIGH : bool := true.
Definition LOW : bool := false.
Definition OUTPUT : Z := 1.
(* Keypad.h: getKey() returns NO_KEY when nothing was pressed *)
Definition NO_KEY : ascii := zero.

(** ** The globals *)

Record Machine : Type := mkMachine {
  alarmSounding : bool;
  gateOpen : bool;
  suspendStartTime : Z;               (* unsigned long *)
  totalSuspendTime : Z;               (* long *)
  suspendTimeAccumulator : Z;         (* long *)
  isUpdatingSuspendTime : bool;
  lastDisplayUpdate : Z;              (* unsigned long *)
  alarmBuzzerPulseStartTime : Z;      (* unsigned long *)
  alarmLEDPulseStartTime : Z;         (* unsigned long *)
  heartbeatLEDPulseStartTime : Z;     (* unsigned long *)
  lcdBacklightTimeoutStartTime : Z;   (* unsigned long *)
  oldLine1 : string;                  (* static in writeLinesOnLCD *)
  oldLine2 : string                   (* static in writeLinesOnLCD *)
}.

Definition set_alarmSounding (v : bool) (g : Machine) : Machine :=
  mkMachine v (gateOpen g) (suspendStartTime g) (totalSuspendTime g)
    (suspendTimeAccumulator g) (isUpdatingSuspendTime g) (lastDisplayUpdate g)
    (alarmBuzzerPulseStartTime g) (alarmLEDPulseStartTime g)
    (heartbeatLEDPulseStartTime g) (lcdBacklightTimeoutStartTime g)
    (oldLine1 g) (oldLine2 g).

Definition set_gateOpen (v : bool) (g : Machine) : Machine :=
  mkMachine (alarmSounding g) v (suspendStartTime g) (totalSuspendTime g)
    (suspendTimeAccumulator g) (isUpdatingSuspendTime g) (lastDisplayUpdate g)
    (alarmBuzzerPulseStartTime g) (alarmLEDPulseStartTime g)
    (heartbeatLEDPulseStartTime g) (lcdBacklightTimeoutStartTime g)
    (oldLine1 g) (oldLine2 g).

Definition set_suspendStartTime (v : Z) (g : Machine) : Machine :=
  mkMachine (alarmSounding g) (gateOpen g) v (totalSuspendTime g)
    (suspendTimeAccumulator g) (isUpdatingSuspendTime g) (lastDisplayUpdate g)
    (alarmBuzzerPulseStartTime g) (alarmLEDPulseStartTime g)
    (heartbeatLEDPulseStartTime g) (lcdBacklightTimeoutStartTime g)
    (oldLine1 g) (oldLine2 g).

Definition set_totalSuspendTime (v : Z) (g : Machine) : Machine :=
  mkMachine (alarmSounding g) (gateOpen g) (suspendStartTime g) v
    (suspendTimeAccumulator g) (isUpdatingSuspendTime g) (lastDisplayUpdate g)
    (alarmBuzzerPulseStartTime g) (alarmLEDPulseStartTime g)
    (heartbeatLEDPulseStartTime g) (lcdBacklightTimeoutStartTime g)
    (oldLine1 g) (oldLine2 g).

Definition set_suspendTimeAccumulator (v : Z) (g : Machine) : Machine :=
  mkMachine (alarmSounding g) (gateOpen g) (suspendStartTime g)
    (totalSuspendTime g) v (isUpdatingSuspendTime g) (lastDisplayUpdate g)
    (alarmBuzzerPulseStartTime g) (alarmLEDPulseStartTime g)
    (heartbeatLEDPulseStartTime g) (lcdBacklightTimeoutStartTime g)
    (oldLine1 g) (oldLine2 g).

Definition set_isUpdatingSuspendTime (v : bool) (g : Machine) : Machine :=
  mkMachine (alarmSounding g) (gateOpen g) (suspendStartTime g)
    (totalSuspendTime g) (suspendTimeAccumulator g) v (lastDisplayUpdate g)
    (alarmBuzzerPulseStartTime g) (alarmLEDPulseStartTime g)
    (heartbeatLEDPulseStartTime g) (lcdBacklightTimeoutStartTime g)
    (oldLine1 g) (oldLine2 g).

Definition set_lastDisplayUpdate (v : Z) (g : Machine) : Machine :=
  mkMachine (alarmSounding g) (gateOpen g) (suspendStartTime g)
    (totalSuspendTime g) (suspendTimeAccumulator g) (isUpdatingSuspendTime g) v
    (alarmBuzzerPulseStartTime g) (alarmLEDPulseStartTime g)
    (heartbeatLEDPulseStartTime g) (lcdBacklightTimeoutStartTime g)
    (oldLine1 g) (oldLine2 g).

Definition set_alarmBuzzerPulseStartTime (v : Z) (g : Machine) : Machine :=
  mkMachine (alarmSounding g) (gateOpen g) (suspendStartTime g)
    (totalSuspendTime g) (suspendTimeAccumulator g) (isUpdatingSuspendTime g)
    (lastDisplayUpdate g) v (alarmLEDPulseStartTime g)
    (heartbeatLEDPulseStartTime g) (lcdBacklightTimeoutStartTime g)
    (oldLine1 g) (oldLine2 g).

Definition set_alarmLEDPulseStartTime (v : Z) (g : Machine) : Machine :=
  mkMachine (alarmSounding g) (gateOpen g) (suspendStartTime g)
    (totalSuspendTime g) (suspendTimeAccumulator g) (isUpdatingSuspendTime g)
    (lastDisplayUpdate g) (alarmBuzzerPulseStartTime g) v
    (heartbeatLEDPulseStartTime g) (lcdBacklightTimeoutStartTime g)
    (oldLine1 g) (oldLine2 g).

Definition set_heartbeatLEDPulseStartTime (v : Z) (g : Machine) : Machine :=
  mkMachine (alarmSounding g) (gateOpen g) (suspendStartTime g)
    (totalSuspendTime g) (suspendTimeAccumulator g) (isUpdatingSuspendTime g)
    (lastDisplayUpdate g) (alarmBuzzerPulseStartTime g)
    (alarmLEDPulseStartTime g) v (lcdBacklightTimeoutStartTime g)
    (oldLine1 g) (oldLine2 g).

Definition set_lcdBacklightTimeoutStartTime (v : Z) (g : Machine) : Machine :=
  mkMachine (alarmSounding g) (gateOpen g) (suspendStartTime g)
    (totalSuspendTime g) (suspendTimeAccumulator g) (isUpdatingSuspendTime g)
    (lastDisplayUpdate g) (alarmBuzzerPulseStartTime g)
    (alarmLEDPulseStartTime g) (heartbeatLEDPulseStartTime g) v
    (oldLine1 g) (oldLine2 g).

Definition set_oldLines (l1 l2 : string) (g : Machine) : Machine :=
  mkMachine (alarmSounding g) (gateOpen g) (suspendStartTime g)
    (totalSuspendTime g) (suspendTimeAccumulator g) (isUpdatingSuspendTime g)
    (lastDisplayUpdate g) (alarmBuzzerPulseStartTime g)
    (alarmLEDPulseStartTime g) (heartbeatLEDPulseStartTime g)
    (lcdBacklightTimeoutStartTime g) l1 l2.

(** Every global as its initialiser leaves it, before the static call of
    [millis()] that initialises [heartbeatLEDPulseStartTime]. *)
Definition zeroed : Machine :=
  mkMachine false false 0 SUSPEND_OFF 0 false 0 0 0 0 0 EmptyString EmptyString.

(** ** The millisecond clock

    [millis()] is called many times in one pass of [loop()], and time may
    pass between two calls.  The clock is the list of the readings still to
    come; once the list is used up the clock stands still at its last
    reading. *)

Record Clock : Type := mkClock {
  upcoming : list Z;
  standing : Z
}.

Definition frozen (t : Z) : Clock := mkClock [] t.

Definition read_clock (c : Clock) : Z * Clock :=
  match upcoming c with
  | [] => (ulong (standing c), c)
  | t :: rest => (ulong t, mkClock rest t)
  end.

(** ** Hardware calls *)

Inductive Event : Type :=
| DigitalWrite (pin : Z) (level : bool)
| PinMode (pin : Z) (mode : Z)
| Delay (ms : Z)
| SetDebounceTime (ms : Z)
| LcdInit
| LcdClear
| LcdBacklight
| LcdNoBacklight
| LcdSetCursor (col row : Z)
| LcdPrint (text : string)
| SerialBegin (baud : Z)
| SerialPrint (text : string)
| SerialPrintln (text : string).

(** ** The monad: globals and clock threaded, hardware calls collected *)

Record World : Type := mkWorld {
  mem : Machine;
  clk : Clock
}.

Record Outcome (A : Type) : Type := mkOutcome {
  value : A;
  after : World;
  emitted : list Event
}.
Arguments mkOutcome {A}.
Arguments value {A}.
Arguments after {A}.
Arguments emitted {A}.

Definition M (A : Type) : Type := World -> Outcome A.

Definition ret {A} (a : A) : M A := fun w => mkOutcome a w [].

Definition bind {A B} (c : M A) (k : A -> M B) : M B :=
  fun w =>
    let r1 := c w in
    let r2 := k (value r1) (after r1) in
    mkOutcome (value r2) (after r2) (emitted r1 ++ emitted r2).

Declare Scope prog_scope.
Delimit Scope prog_scope with prog.
Bind Scope prog_scope with M.
Notation "x <- c ;; k" := (bind c (fun x => k))
  (at level 61, c at next level, right associativity) : prog_scope.
Notation "c ;; k" := (bind c (fun _ => k))
  (at level 61, right associativity) : prog_scope.
Local Open Scope prog_scope.

Definition get : M Machine := fun w => mkOutcome (mem w) w [].

Definition modify (f : Machine -> Machine) : M unit :=
  fun w => mkOutcome tt (mkWorld (f (mem w)) (clk w)) [].

Definition emit (e : Event) : M unit := fun w => mkOutcome tt w [e].

Definition skip : M unit := ret tt.

(** [millis()] on the device. *)
Definition hw_millis : M Z :=
  fun w =>
    let r := read_clock (clk w) in
    mkOutcome (fst r) (mkWorld (mem w) (snd r)) [].

Definition digitalWrite (pin : Z) (level : bool) : M unit :=
  emit (DigitalWrite pin level).

(* debug.h with DEBUG defined *)
Definition DBGbegin (baud : Z) : M unit := emit (SerialBegin baud).
Definition DBGprint (s : string) : M unit := emit (SerialPrint s).
Definition DBGprintln (s : string) : M unit := emit (SerialPrintln s).

(** ** keypadValue (main.cpp:65) *)

(** A [char] is a signed byte on this target. *)
Definition char_code (c : ascii) : Z :=
  let n := Z.of_N (N_of_ascii c) in
  if n >=? 128 then n - 256 else n.

Definition keypadValue (key : ascii) : Z :=
  if (char_code key >=? char_code "0") && (char_code key <=? char_code "9")
  then char_code key - char_code "0"
  else if char_code key =? char_code "#" then HASH_KEY
  else if char_code key =? char_code "*" then STAR_KEY
  else INVALID_KEY.

(** ** The sketch

    Everything below reads the time through [millis], a variable of the
    section: instantiated with [hw_millis] it is the sketch as written;
    instantiated with a constant it is the sketch in which every call of
    [millis()] has been replaced by one timestamp. *)

Section Sketch.

Variable millis : M Z.

(* main.cpp:109 *)
Definition switchLCDBacklightOn : M unit :=
  t <- millis ;;
  modify (set_lcdBacklightTimeoutStartTime t) ;;
  emit LcdBacklight.

(* main.cpp:114 *)
Definition switchLCDBacklightOff : M unit :=
  emit LcdNoBacklight ;;
  modify (set_lcdBacklightTimeoutStartTime 0).

(* main.cpp:105, the one global with a dynamic initialiser *)
Definition static_init : M unit :=
  t <- millis ;;
  modify (set_heartbeatLEDPulseStartTime t).

(* main.cpp:119 *)
Definition setup : M unit :=
  DBGbegin 9600 ;;
  emit LcdInit ;;
  emit LcdClear ;;
  emit LcdBacklight ;;
  emit (LcdSetCursor 0 0) ;;
  emit (LcdPrint "** Gate Alarm **") ;;
  emit (LcdSetCursor 0 1) ;;
  emit (LcdPrint "**   Welcome  **") ;;
  switchLCDBacklightOn ;;
  emit (Delay 2000) ;;
  emit (SetDebounceTime DEBOUNCE_DELAY) ;;
  emit (PinMode ALARM_LED_PIN OUTPUT) ;;
  emit (PinMode ALARM_BUZZER_PIN OUTPUT) ;;
  emit (PinMode HEARTBEAT_LED_PIN OUTPUT).

(* main.cpp:146 *)
Definition isSuspended : M bool :=
  g <- get ;;
  ret (negb (totalSuspendTime g =? SUSPEND_OFF)).

(* main.cpp:150 *)
Definition isInfiniteSuspension : M bool :=
  g <- get ;;
  ret (totalSuspendTime g =? SUSPEND_INFINITE).

(* main.cpp:154 *)
Definition writeLinesOnLCD (line1 line2 : string) : M unit :=
  g <- get ;;
  if negb (String.eqb line1 (oldLine1 g)) || negb (String.eqb line2 (oldLine2 g))
  then
    switchLCDBacklightOn ;;
    modify (set_oldLines line1 line2) ;;
    emit LcdClear ;;
    (let leftLine1 := uint (LCD_WIDTH - Z.of_nat (String.length line1)) / 2 in
     emit (LcdSetCursor leftLine1 0)) ;;
    emit (LcdPrint line1) ;;
    (let leftLine2 := uint (LCD_WIDTH - Z.of_nat (String.length line2)) / 2 in
     emit (LcdSetCursor leftLine2 1)) ;;
    emit (LcdPrint line2)
  else skip.

(* main.cpp:171 *)
Definition updateDisplay : M unit :=
  g <- get ;;
  if isUpdatingSuspendTime g then
    writeLinesOnLCD "Enter delay:" (decimal (suspendTimeAccumulator g))
  else
    suspended <- isSuspended ;;
    if suspended then
      infinite <- isInfiniteSuspension ;;
      if infinite then
        writeLinesOnLCD "Alarm" "Suspended"
      else
        t <- millis ;;
        let millisRemaining :=
          slong (ulong (ulong (ulong (totalSuspendTime g) - t) + suspendStartTime g)) in
        let minsRemaining := uint (ulong millisRemaining / MILLIS_PER_MINUTE) in
        let secsRemaining :=
          uint (ulong (ulong millisRemaining - ulong (minsRemaining * MILLIS_PER_MINUTE))
                / MILLIS_PER_SECOND) in
        let secsRemaining := uint (secsRemaining mod SECONDS_PER_MINUTE) in
        let secsStr := decimal secsRemaining in
        let secsStr :=
          if (String.length secsStr =? 1)%nat then ("0" ++ secsStr)%string else secsStr in
        writeLinesOnLCD "Alarm paused for"
          (decimal minsRemaining ++ ":" ++ secsStr)%string
    else
      if gateOpen g then writeLinesOnLCD "** GATE **" "** OPEN **"
      else writeLinesOnLCD "OK" ""
.

(* main.cpp:201 *)
Definition hideAlarmLED : M unit :=
  modify (set_alarmLEDPulseStartTime 0) ;;
  digitalWrite ALARM_LED_PIN LOW.

(* main.cpp:206 *)
Definition showAlarmLED : M unit :=
  digitalWrite ALARM_LED_PIN HIGH ;;
  t <- millis ;;
  modify (set_alarmLEDPulseStartTime t).

(* main.cpp:211 *)
Definition silenceAlarm : M unit :=
  g <- get ;;
  if alarmSounding g then
    modify (set_alarmSounding false) ;;
    modify (set_alarmBuzzerPulseStartTime 0) ;;
    digitalWrite ALARM_BUZZER_PIN LOW ;;
    DBGprintln "*** Alarm silenced"
  else skip.

(* main.cpp:220 *)
Definition activateAlarm : M unit :=
  g <- get ;;
  if gateOpen g then
    if negb (alarmSounding g) then
      DBGprintln "*** ALARM ACTIVATED" ;;
      digitalWrite ALARM_BUZZER_PIN HIGH ;;
      t <- millis ;;
      modify (set_alarmBuzzerPulseStartTime t) ;;
      modify (set_alarmSounding true)
    else skip
  else skip.

(* main.cpp:231 *)
Definition cancelSuspension : M unit :=
  modify (set_totalSuspendTime SUSPEND_OFF) ;;
  modify (set_suspendStartTime 0).

(* main.cpp:236 *)
Definition openGate : M unit :=
  g <- get ;;
  if negb (gateOpen g) then
    DBGprintln "*** Gate open" ;;
    modify (set_gateOpen true) ;;
    showAlarmLED ;;
    suspended <- isSuspended ;;
    if negb suspended then activateAlarm else skip
  else skip.

(* main.cpp:247 *)
Definition reset : M unit :=
  DBGprintln "*** Reset" ;;
  modify (set_gateOpen false) ;;
  cancelSuspension ;;
  silenceAlarm ;;
  hideAlarmLED.

(* main.cpp:255 *)
Definition processKeypadDigit (digit : Z) : M unit :=
  DBGprint "Processing keypad DIGIT: " ;;
  DBGprintln (decimal digit) ;;
  g <- get ;;
  if isUpdatingSuspendTime g then
    modify (set_suspendTimeAccumulator
              (slong (suspendTimeAccumulator g * DIGIT_ENTRY_BASE + digit))) ;;
    DBGprint "  Editing suspend time. Updated value = " ;;
    g <- get ;;
    DBGprintln (decimal (suspendTimeAccumulator g))
  else
    modify (set_suspendTimeAccumulator digit) ;;
    modify (set_isUpdatingSuspendTime true) ;;
    DBGprint "  Starting to edit suspend time. Starting value = " ;;
    g <- get ;;
    DBGprintln (decimal (suspendTimeAccumulator g)).

(* main.cpp:271 *)
Definition processKeypadHash : M unit :=
  DBGprintln "Processing keypad HASH key" ;;
  g <- get ;;
  (if isUpdatingSuspendTime g then
     (if negb (suspendTimeAccumulator g =? 0) then
        (* long * unsigned long: computed unsigned, stored back in a long *)
        modify (set_totalSuspendTime
                  (slong (ulong (ulong (suspendTimeAccumulator g) * MILLIS_PER_MINUTE)))) ;;
        DBGprint "  Entered suspend time of " ;;
        g <- get ;;
        DBGprintln (decimal (totalSuspendTime g))
      else
        modify (set_totalSuspendTime SUSPEND_OFF) ;;
        DBGprintln "  Entered zero value for suspend time => turned suspension off") ;;
     modify (set_suspendTimeAccumulator 0) ;;
     modify (set_isUpdatingSuspendTime false)
   else
     modify (set_totalSuspendTime SUSPEND_INFINITE) ;;
     switchLCDBacklightOn ;;
     DBGprintln "  Pressed HASH key without entering value: entered infinite supension") ;;
  DBGprint "  Result: " ;;
  suspended <- isSuspended ;;
  if suspended then
    DBGprint "Suspended, time in ms = " ;;
    g <- get ;;
    DBGprintln (decimal (totalSuspendTime g)) ;;
    (if alarmSounding g then silenceAlarm else skip) ;;
    infinite <- isInfiniteSuspension ;;
    if negb infinite then
      t <- millis ;;
      modify (set_suspendStartTime t)
    else
      modify (set_suspendStartTime 0)
  else
    DBGprint "Not suspended, " ;;
    g <- get ;;
    if gateOpen g then
      DBGprintln "gate IS open (reactivating alarm)" ;;
      activateAlarm
    else
      DBGprintln "gate NOT open (doing nothing)".

(* main.cpp:319 *)
Definition processKeypadStar : M unit :=
  DBGprintln "Processing keypad STAR key: resetting gate alarm" ;;
  reset.

(** *** loop(), one block per commented part of its body *)

(* main.cpp:326-332; [pressed] is what btnMagnet.isPressed() answers
   after btnMagnet.loop() *)
Definition loop_gate (pressed : bool) : M unit :=
  if pressed then openGate else skip.

(* main.cpp:334-348; [keyPadKey] is what keypad.getKey() answers *)
Definition loop_keypad (keyPadKey : ascii) : M unit :=
  if negb (char_code keyPadKey =? 0) then
    let keyVal := keypadValue keyPadKey in
    if (keyVal >=? 0) && (keyVal <=? 9) then processKeypadDigit keyVal
    else if keyVal =? HASH_KEY then processKeypadHash
    else if keyVal =? STAR_KEY then processKeypadStar
    else skip
  else skip.

(* main.cpp:350-357 *)
Definition loop_suspension : M unit :=
  suspended <- isSuspended ;;
  infinite <- isInfiniteSuspension ;;
  if suspended && negb infinite then
    t <- millis ;;
    g <- get ;;
    if ulong (t - suspendStartTime g) >? ulong (totalSuspendTime g) then
      DBGprintln "*** Suspension timeout" ;;
      cancelSuspension ;;
      activateAlarm
    else skip
  else skip.

(* main.cpp:359-363 *)
Definition loop_display : M unit :=
  t <- millis ;;
  g <- get ;;
  if ulong (t - lastDisplayUpdate g) >? DISPLAY_UPDATE_DELTA then
    updateDisplay ;;
    t <- millis ;;
    modify (set_lastDisplayUpdate t)
  else skip.

(* main.cpp:365-378 *)
Definition loop_buzzer : M unit :=
  g <- get ;;
  if alarmSounding g then
    t <- millis ;;
    if ulong (t - alarmBuzzerPulseStartTime g) >? ALARM_BUZZER_CYCLE_TIME then
      t <- millis ;;
      modify (set_alarmBuzzerPulseStartTime t)
    else
      t <- millis ;;
      if ulong (t - alarmBuzzerPulseStartTime g) <? ALARM_BUZZER_ON_TIME
      then digitalWrite ALARM_BUZZER_PIN HIGH
      else digitalWrite ALARM_BUZZER_PIN LOW
  else skip.

(* main.cpp:380-393 *)
Definition loop_alarm_led : M unit :=
  g <- get ;;
  if gateOpen g then
    t <- millis ;;
    if ulong (t - alarmLEDPulseStartTime g) >? ALARM_LED_CYCLE_TIME then
      t <- millis ;;
      modify (set_alarmLEDPulseStartTime t)
    else
      t <- millis ;;
      if ulong (t - alarmLEDPulseStartTime g) <? ALARM_LED_ON_TIME
      then digitalWrite ALARM_LED_PIN HIGH
      else digitalWrite ALARM_LED_PIN LOW
  else skip.

(* main.cpp:395-411 *)
Definition loop_heartbeat : M unit :=
  suspended <- isSuspended ;;
  if negb suspended then
    t <- millis ;;
    g <- get ;;
    if ulong (t - heartbeatLEDPulseStartTime g) >? HEARTBEAT_LED_CYCLE_TIME then
      t <- millis ;;
      modify (set_heartbeatLEDPulseStartTime t)
    else
      t <- millis ;;
      if ulong (t - heartbeatLEDPulseStartTime g) <? HEARTBEAT_LED_ON_TIME
      then digitalWrite HEARTBEAT_LED_PIN HIGH
      else digitalWrite HEARTBEAT_LED_PIN LOW
  else digitalWrite HEARTBEAT_LED_PIN HIGH.

(** The condition of the [if] at main.cpp:418-423, on the clock reading
    [t] and the globals [g]. *)
Definition backlight_due (t : Z) (g : Machine) : bool :=
  (ulong (t - lcdBacklightTimeoutStartTime g) >=? LCD_BACKLIGHT_TIMEOUT)
  && negb (gateOpen g)
  && (negb (negb (totalSuspendTime g =? SUSPEND_OFF))
      || (totalSuspendTime g =? SUSPEND_INFINITE))
  && negb (isUpdatingSuspendTime g).

(* main.cpp:413-425 *)
Definition loop_backlight : M unit :=
  t <- millis ;;
  g <- get ;;
  if backlight_due t g then switchLCDBacklightOff else skip.

(** Everything in [loop()] before the backlight check. *)
Definition loop_upto_backlight (pressed : bool) (keyPadKey : ascii) : M unit :=
  loop_gate pressed ;;
  loop_keypad keyPadKey ;;
  loop_suspension ;;
  loop_display ;;
  loop_buzzer ;;
  loop_alarm_led ;;
  loop_heartbeat.

(* main.cpp:324 *)
Definition loop (pressed : bool) (keyPadKey : ascii) : M unit :=
  loop_upto_backlight pressed keyPadKey ;;
  loop_backlight.

End Sketch.

(** ** loop() on one clock reading

    The loop body in which every call of [millis()] is replaced by one
    timestamp, read when the pass starts. *)
Definition loop_single_read (pressed : bool) (keyPadKey : ascii) : M unit :=
  now <- hw_millis ;;
  loop (ret now) pressed keyPadKey.

(** What a pass leaves behind: the globals and the hardware calls made. *)
Definition observable {A} (r : Outcome A) : Machine * list Event :=
  (mem (after r), emitted r).

(** The clock reads [t] now and at every later call. *)
Definition steady (t : Z) (c : Clock) : Prop :=
  Forall (fun x => ulong x = t) (upcoming c)
  /\ (upcoming c = [] -> ulong (standing c) = t).

(** Power-on followed by [setup()]. *)
Definition boot : M unit :=
  static_init hw_millis ;;
  setup hw_millis.

(** ** Sample worlds *)

(** The clock readings [from], [from + 1], ... ([n] of them). *)
Definition ticks (from : Z) (n : nat) : list Z :=
  map (fun k => from + Z.of_nat k) (seq 0 n).

(** A clock that advances by one millisecond at every reading. *)
Definition ticking (from : Z) : Clock := mkClock (ticks from 64) from.

Definition power_on (c : Clock) : World := mkWorld zeroed c.

(** The device after [setup()], nothing pressed yet, the clock standing. *)
Definition idle_world : World := after (boot (power_on (frozen 0))).

(** The same device with the clock running, a little after [setup()]. *)
Definition running_world : World := mkWorld (mem idle_world) (ticking 2300).

(** The gate has been seen open and the alarm sounds. *)
Definition alarmed_world : World :=
  after (loop hw_millis true NO_KEY idle_world).

(** A world's globals with the clock standing at [now]. *)
Definition at_time (now : Z) (w : World) : World :=
  mkWorld (mem w) (frozen now).

(** The gate is open and the alarm has been suspended with the hash key. *)
Definition suspended_world : World :=
  after (processKeypadHash hw_millis alarmed_world).

(** The gate is open and the alarm has been suspended for one minute, the
    keys 1 and # having been pressed at time 0; the clock now stands at
    [now]. *)
Definition timed_world (now : Z) : World :=
  mkWorld
    (mem (after ((processKeypadDigit 1 ;; processKeypadHash hw_millis)
                   alarmed_world)))
    (frozen now).

(** The buzzer block of [loop()] run at each of the times [ts] in turn,
    with the clock standing during each run: what is written to the
    hardware each time. *)
Fixpoint buzzer_runs (ts : list Z) (g : Machine) : list (list Event) :=
  match ts with
  | [] => []
  | t :: rest =>
      let r := loop_buzzer hw_millis (mkWorld g (frozen t)) in
      emitted r :: buzzer_runs rest (mem (after r))
  end.

(** Passes of [loop()], one per pair of sensor and keypad answers. *)
Fixpoint passes (inputs : list (bool * ascii)) : M unit :=
  match inputs with
  | [] => skip
  | (pressed, key) :: rest => loop hw_millis pressed key ;; passes rest
  end.

(** ** Keypad entry *)

(** The keys that [keypadValue] maps to a digit. *)
Definition digit_keys : list ascii :=
  ["0"; "1"; "2"; "3"; "4"; "5"; "6"; "7"; "8"; "9"]%char.


(** The digit keys pressed one after the other. *)
Fixpoint press_digits (ds : list Z) : M unit :=
  match ds with
  | [] => skip
  | d :: rest => processKeypadDigit d ;; press_digits rest
  end.

(** The number a digit string denotes when appended to [acc]. *)
Definition digits_value (acc : Z) (ds : list Z) : Z :=
  fold_left (fun a d => a * 10 + d) ds acc.

Definition is_digit (d : Z) : Prop := 0 <= d <= 9.

(** ** Properties of states and actions *)

(** The alarm sounds only while the gate is open and nothing suspends it. *)
Definition alarm_masked (g : Machine) : Prop :=
  alarmSounding g = true ->
  gateOpen g = true /\ totalSuspendTime g = SUSPEND_OFF.

(** A finite suspension is in force. *)
Definition timed (g : Machine) : Prop :=
  totalSuspendTime g <> SUSPEND_OFF /\ totalSuspendTime g <> SUSPEND_INFINITE.

(** The part of the globals that the alarm logic owns; the pulse timers and
    the display cache are left out. *)
Definition alarm_view (g : Machine) : bool * bool * Z * Z * Z * bool :=
  (alarmSounding g, gateOpen g, totalSuspendTime g, suspendStartTime g,
   suspendTimeAccumulator g, isUpdatingSuspendTime g).

(** [c] keeps [P] true of the globals. *)
Definition keeps {A} (P : Machine -> Prop) (c : M A) : Prop :=
  forall w, P (mem w) -> P (mem (after (c w))).

(** [c] never makes the hardware call [e]. *)
Definition never_emits {A} (e : Event) (c : M A) : Prop :=
  forall w, ~ In e (emitted (c w)).

(** [c1] run on a clock that stands at [t] and [c2] run on any clock deliver
    the same value, globals and hardware calls, and [c1] leaves the clock
    standing at [t]. *)
Definition agree {A} (t : Z) (c1 c2 : M A) : Prop :=
  forall w1 w2,
    mem w1 = mem w2 ->
    steady t (clk w1) ->
    value (c1 w1) = value (c2 w2)
    /\ mem (after (c1 w1)) = mem (after (c2 w2))
    /\ emitted (c1 w1) = emitted (c2 w2)
    /\ steady t (clk (after (c1 w1))).

(** [Q] holds of the outcome of running [c] from [w]. *)
Definition wp {A} (c : M A) (Q : Outcome A -> Prop) (w : World) : Prop :=
  Q (c w).

(** A one-minute suspension started one second before the clock wraps
    around, looked at 60001 ms after it started: the clock reads 59001. *)
Definition rollover_world : World :=
  mkWorld (set_suspendStartTime (2 ^ 32 - 1000) (mem (timed_world 0)))
          (frozen 59001).

(** ** Kinds of hardware calls *)

(** The calls of [setup()] only: configuration and the blocking delay. *)
Definition setup_call (e : Event) : Prop :=
  match e with
  | PinMode _ _ | Delay _ | SetDebounceTime _ | LcdInit | SerialBegin _ => True
  | _ => False
  end.

(** The calls that redraw the text of the LCD. *)
Definition lcd_text (e : Event) : Prop :=
  match e with
  | LcdClear | LcdSetCursor _ _ | LcdPrint _ => True
  | _ => False
  end.

(** A call other than a write to a pin that [setup()] has not made an
    output is fine in [loop()], unless it is one of [setup()]'s own. *)
Definition loop_call (configured : list Event) (e : Event) : Prop :=
  match e with
  | DigitalWrite pin _ => In (PinMode pin OUTPUT) configured
  | _ => ~ setup_call e
  end.

(** ** Text on the LCD *)

(** [c] is where a line of text [s] is put by centring it on the 16 columns:
    a line that fits starts at half the free space and ends on the display;
    for a longer line (up to 65535 characters) the unsigned subtraction
    wraps, so that a line of 17 characters is sent to column 32767. *)
Definition centred (s : string) (c : Z) : Prop :=
  let len := Z.of_nat (String.length s) in
  (len <= 16 -> c = (16 - len) / 2 /\ 0 <= c /\ c + len <= 16)
  /\ (16 < len < 65536 -> c = (65552 - len) / 2).

(** The seconds of a countdown fill two characters. *)
Definition two_digit_check (n : nat) : bool :=
  let s := decimal (Z.of_nat n) in
  if (n <? 10)%nat then (String.length s =? 1)%nat
  else (String.length s =? 2)%nat.

(** What the display refresh owns among the globals: the time of the last
    refresh and the two lines last drawn. *)
Definition display_cache (g : Machine) : Z * string * string :=
  (lastDisplayUpdate g, oldLine1 g, oldLine2 g).

(** A countdown under way: 15.5 s into the one-minute suspension. *)
Definition countdown_world : World := timed_world 15500.

(** An infinite suspension has no start time. *)
Definition infinite_unstamped (g : Machine) : Prop :=
  totalSuspendTime g = SUSPEND_INFINITE -> suspendStartTime g = 0.

(** ** Output pins *)

(** The level a pin is left at by a sequence of hardware calls: that of the
    last [digitalWrite] to it, if there is one. *)
Definition pin_step (pin : Z) (level : option bool) (e : Event) : option bool :=
  match e with
  | DigitalWrite p l => if p =? pin then Some l else level
  | _ => level
  end.

Definition last_write (pin : Z) (tr : list Event) : option bool :=
  fold_left (pin_step pin) tr None.

(** While [flag] is false, the hardware calls [tr] made so far have not left
    [pin] high. *)
Definition pin_off_unless
    (flag : Machine -> bool) (pin : Z) (tr : list Event) (g : Machine) : Prop :=
  flag g = false -> last_write pin tr <> Some HIGH.

(** The buzzer is not left on while the alarm is silent. *)
Definition buzzer_safe : list Event -> Machine -> Prop :=
  pin_off_unless alarmSounding ALARM_BUZZER_PIN.

(** The alarm LED is not left on while the gate flag is clear. *)
Definition alarm_led_safe : list Event -> Machine -> Prop :=
  pin_off_unless gateOpen ALARM_LED_PIN.

(** [c] keeps [J], a relation between the hardware calls made so far and the
    globals. *)
Definition tracks {A} (J : list Event -> Machine -> Prop) (c : M A) : Prop :=
  forall w tr, J tr (mem w) -> J (tr ++ emitted (c w)) (mem (after (c w))).

(** [c] makes only hardware calls that satisfy [P]. *)
Definition emits_only {A} (P : Event -> Prop) (c : M A) : Prop :=
  forall w, Forall P (emitted (c w)).

(** ** Proof automation *)

Ltac unfold_sketch :=
  unfold loop, loop_upto_backlight, loop_gate, loop_keypad, loop_suspension,
    loop_display, loop_buzzer, loop_alarm_led, loop_heartbeat, loop_backlight,
    processKeypadStar, processKeypadHash, processKeypadDigit, reset, openGate,
    cancelSuspension, activateAlarm, silenceAlarm, showAlarmLED, hideAlarmLED,
    updateDisplay, writeLinesOnLCD, isInfiniteSuspension, isSuspended,
    switchLCDBacklightOff, switchLCDBacklightOn,
    digitalWrite, DBGprint, DBGprintln, skip.

(** ** Rules for [keeps], [never_emits] and [agree] *)

Section Rules.

Context {A B : Type}.

Lemma keeps_ret (P : Machine -> Prop) (a : A) : keeps P (ret a).
Proof. intros w H. exact H. Qed.

Lemma keeps_get (P : Machine -> Prop) : keeps P get.
Proof. intros w H. exact H. Qed.

Lemma keeps_emit (P : Machine -> Prop) (e : Event) : keeps P (emit e).
Proof. intros w H. exact H. Qed.

Lemma keeps_hw_millis (P : Machine -> Prop) : keeps P hw_millis.
Proof. intros w H. exact H. Qed.

Lemma keeps_modify (P : Machine -> Prop) (f : Machine -> Machine) :
  (forall g, P g -> P (f g)) -> keeps P (modify f).
Proof. intros Hf w H. apply Hf, H. Qed.

Lemma keeps_bind (P : Machine -> Prop) (c : M A) (k : A -> M B) :
  keeps P c -> (forall a, keeps P (k a)) -> keeps P (bind c k).
Proof. intros Hc Hk w H. unfold bind. cbn [after]. apply Hk, Hc, H. Qed.

Lemma keeps_if (P : Machine -> Prop) (b : bool) (c1 c2 : M A) :
  keeps P c1 -> keeps P c2 -> keeps P (if b then c1 else c2).
Proof. destruct b; trivial. Qed.

Lemma never_emits_ret (e : Event) (a : A) : never_emits e (ret a).
Proof. intros w H. exact H. Qed.

Lemma never_emits_get (e : Event) : never_emits e get.
Proof. intros w H. exact H. Qed.

Lemma never_emits_hw_millis (e : Event) : never_emits e hw_millis.
Proof. intros w H. exact H. Qed.

Lemma never_emits_modify (e : Event) (f : Machine -> Machine) :
  never_emits e (modify f).
Proof. intros w H. exact H. Qed.

Lemma never_emits_emit (e e' : Event) : e' <> e -> never_emits e (emit e').
Proof. intros Hne w [H | []]. exact (Hne H). Qed.

Lemma never_emits_bind (e : Event) (c : M A) (k : A -> M B) :
  never_emits e c -> (forall a, never_emits e (k a)) -> never_emits e (bind c k).
Proof.
  intros Hc Hk w H. unfold bind in H. cbn [emitted] in H.
  apply in_app_or in H. destruct H as [H | H].
  - exact (Hc _ H).
  - exact (Hk _ _ H).
Qed.

Lemma never_emits_if (e : Event) (b : bool) (c1 c2 : M A) :
  never_emits e c1 -> never_emits e c2 -> never_emits e (if b then c1 else c2).
Proof. destruct b; trivial. Qed.

Lemma agree_ret (t : Z) (a : A) : agree t (ret a) (ret a).
Proof. intros w1 w2 Hm Hs. cbn. auto. Qed.

Lemma agree_get (t : Z) : agree t get get.
Proof. intros w1 w2 Hm Hs. cbn. auto. Qed.

Lemma agree_emit (t : Z) (e : Event) : agree t (emit e) (emit e).
Proof. intros w1 w2 Hm Hs. cbn. auto. Qed.

Lemma agree_modify (t : Z) (f : Machine -> Machine) :
  agree t (modify f) (modify f).
Proof. intros w1 w2 Hm Hs. cbn. rewrite Hm. auto. Qed.

Lemma agree_millis (t : Z) : agree t hw_millis (ret t).
Proof.
  intros w1 w2 Hm [Hup Hst]. unfold hw_millis, ret, read_clock.
  destruct (upcoming (clk w1)) as [| x rest] eqn:E; cbn.
  - repeat split; auto. rewrite E. constructor.
  - inversion Hup; subst. repeat split; auto.
Qed.

Lemma agree_bind (t : Z) (c1 c2 : M A) (k1 k2 : A -> M B) :
  agree t c1 c2 -> (forall a, agree t (k1 a) (k2 a)) ->
  agree t (bind c1 k1) (bind c2 k2).
Proof.
  intros Hc Hk w1 w2 Hm Hs. unfold bind. cbn [value after emitted].
  destruct (Hc w1 w2 Hm Hs) as (Hv & Hm' & He & Hs').
  rewrite Hv, He.
  destruct (Hk (value (c2 w2)) _ _ Hm' Hs') as (Hv2 & Hm2 & He2 & Hs2).
  rewrite He2. auto.
Qed.

Lemma agree_if (t : Z) (b : bool) (c1 c2 d1 d2 : M A) :
  agree t c1 d1 -> agree t c2 d2 ->
  agree t (if b then c1 else c2) (if b then d1 else d2).
Proof. destruct b; trivial. Qed.

Lemma wp_bind (c : M A) (k : A -> M B) (Q : Outcome B -> Prop) (w : World) :
  wp c (fun r1 =>
          wp (k (value r1))
             (fun r2 => Q (mkOutcome (value r2) (after r2) (emitted r1 ++ emitted r2)))
             (after r1)) w ->
  wp (bind c k) Q w.
Proof. exact (fun H => H). Qed.

Lemma wp_ret (a : A) (Q : Outcome A -> Prop) (w : World) :
  Q (mkOutcome a w []) -> wp (ret a) Q w.
Proof. exact (fun H => H). Qed.

Lemma wp_get (Q : Outcome Machine -> Prop) (w : World) :
  Q (mkOutcome (mem w) w []) -> wp get Q w.
Proof. exact (fun H => H). Qed.

Lemma wp_modify (f : Machine -> Machine) (Q : Outcome unit -> Prop) (w : World) :
  Q (mkOutcome tt (mkWorld (f (mem w)) (clk w)) []) -> wp (modify f) Q w.
Proof. exact (fun H => H). Qed.

Lemma wp_emit (e : Event) (Q : Outcome unit -> Prop) (w : World) :
  Q (mkOutcome tt w [e]) -> wp (emit e) Q w.
Proof. exact (fun H => H). Qed.

Lemma wp_hw_millis (Q : Outcome Z -> Prop) (w : World) :
  Q (mkOutcome (fst (read_clock (clk w)))
               (mkWorld (mem w) (snd (read_clock (clk w)))) []) ->
  wp hw_millis Q w.
Proof. exact (fun H => H). Qed.

End Rules.

(** Symbolic execution: one rule of [wp] per construct of the sketch, the
    globals simplified after each step, arithmetic left alone. *)
Ltac tidy :=
  cbn beta iota zeta delta
    [value after emitted mem clk app
     alarmSounding gateOpen suspendStartTime totalSuspendTime
     suspendTimeAccumulator isUpdatingSuspendTime lastDisplayUpdate
     alarmBuzzerPulseStartTime alarmLEDPulseStartTime
     heartbeatLEDPulseStartTime lcdBacklightTimeoutStartTime
     oldLine1 oldLine2
     set_alarmSounding set_gateOpen set_suspendStartTime
     set_totalSuspendTime set_suspendTimeAccumulator
     set_isUpdatingSuspendTime set_lastDisplayUpdate
     set_alarmBuzzerPulseStartTime set_alarmLEDPulseStartTime
     set_heartbeatLEDPulseStartTime set_lcdBacklightTimeoutStartTime
     set_oldLines negb] in *.

Ltac known_tests :=
  repeat match goal with
         | H : ?b = true |- context [if ?b then _ else _] => rewrite H
         | H : ?b = false |- context [if ?b then _ else _] => rewrite H
         end.

Ltac has_variable b :=
  match b with
  | context [?x] => is_var x
  end.

(** A test on constants is decided; any other is split in two cases. *)
Ltac split_test b :=
  tryif has_variable b
  then (let E := fresh "E" in
        destruct b eqn:E;
        try solve [exfalso; apply Z.eqb_eq in E; contradiction])
  else (let v := eval vm_compute in b in change b with v).

Ltac wp_step :=
  lazymatch goal with
  | |- wp (bind _ _) _ _ => apply wp_bind
  | |- wp (ret _) _ _ => apply wp_ret
  | |- wp get _ _ => apply wp_get
  | |- wp (modify _) _ _ => apply wp_modify
  | |- wp (emit _) _ _ => apply wp_emit
  | |- wp hw_millis _ _ => apply wp_hw_millis
  | |- wp (if true then _ else _) _ _ => idtac
  | |- wp (if false then _ else _) _ _ => idtac
  | |- wp (if ?b then _ else _) _ _ => split_test b
  end; tidy; known_tests.

Ltac wp_run := unfold_sketch; tidy; known_tests; repeat wp_step.

(** Turns a goal about the outcome [c w] into a [wp] goal. *)
Ltac wp_start c w :=
  pattern (c w);
  lazymatch goal with
  | |- ?Q (c w) => change (wp c Q w)
  end.

Ltac keeps_rules :=
  repeat first
    [ apply keeps_bind; [| intro]
    | apply keeps_if
    | apply keeps_ret
    | apply keeps_get
    | apply keeps_emit
    | apply keeps_hw_millis
    | apply keeps_modify; intros ? ?; assumption ].

Ltac never_emits_rules :=
  repeat first
    [ apply never_emits_bind; [| intro]
    | apply never_emits_if
    | apply never_emits_ret
    | apply never_emits_get
    | apply never_emits_hw_millis
    | apply never_emits_modify
    | apply never_emits_emit; discriminate ].

Ltac agree_rules :=
  repeat first
    [ apply agree_bind; [| intro]
    | apply agree_if
    | apply agree_millis
    | apply agree_ret
    | apply agree_get
    | apply agree_emit
    | apply agree_modify ].

Lemma after_bind {A B} (c : M A) (k : A -> M B) (w : World) :
  after (bind c k w) = after (k (value (c w)) (after (c w))).
Proof. reflexivity. Qed.

Lemma emitted_bind {A B} (c : M A) (k : A -> M B) (w : World) :
  emitted (bind c k w) = emitted (c w) ++ emitted (k (value (c w)) (after (c w))).
Proof. reflexivity. Qed.

(** ** The blocks of [loop()] after the suspension check leave the alarm
    logic's globals alone *)

Lemma loop_display_frame v :
  keeps (fun g => alarm_view g = v) (loop_display hw_millis).
Proof. unfold_sketch. keeps_rules. Qed.

Lemma loop_buzzer_frame v :
  keeps (fun g => alarm_view g = v) (loop_buzzer hw_millis).
Proof. unfold_sketch. keeps_rules. Qed.

Lemma loop_alarm_led_frame v :
  keeps (fun g => alarm_view g = v) (loop_alarm_led hw_millis).
Proof. unfold_sketch. keeps_rules. Qed.

Lemma loop_heartbeat_frame v :
  keeps (fun g => alarm_view g = v) (loop_heartbeat hw_millis).
Proof. unfold_sketch. keeps_rules. Qed.

Lemma loop_backlight_frame v :
  keeps (fun g => alarm_view g = v) (loop_backlight hw_millis).
Proof. unfold_sketch. keeps_rules. Qed.

(** ** Machine arithmetic *)

Lemma ulong_small (z : Z) : 0 <= z < 2 ^ 32 -> ulong z = z.
Proof. intros H. unfold ulong. apply Z.mod_small, H. Qed.

Lemma ulong_range (z : Z) : 0 <= ulong z < 2 ^ 32.
Proof. unfold ulong. apply Z.mod_pos_bound. reflexivity. Qed.

Lemma slong_small (z : Z) : 0 <= z < 2 ^ 31 -> slong z = z.
Proof.
  intros H. unfold slong. rewrite Z.mod_small; [ring |].
  change (2 ^ 32) with (2 ^ 31 + 2 ^ 31). lia.
Qed.

Lemma slong_high (z : Z) : 2 ^ 31 <= z < 2 ^ 32 -> slong z = z - 2 ^ 32.
Proof.
  intros H. unfold slong.
  replace (z + 2 ^ 31) with ((z - 2 ^ 31) + 1 * 2 ^ 32) by ring.
  rewrite Z.mod_add by discriminate.
  rewrite Z.mod_small; [ring |].
  change (2 ^ 32) with (2 ^ 31 + 2 ^ 31) in *. lia.
Qed.

Lemma ulong_slong (z : Z) : ulong (slong z) = ulong z.
Proof.
  unfold ulong, slong.
  rewrite Zminus_mod, Zmod_mod, <- Zminus_mod.
  f_equal. ring.
Qed.

Lemma MILLIS_PER_MINUTE_value : MILLIS_PER_MINUTE = 60000.
Proof. reflexivity. Qed.

(** Boolean tests as facts. *)
Ltac bool_facts :=
  repeat match goal with
         | H : negb _ = true |- _ => apply negb_true_iff in H
         | H : negb _ = false |- _ => apply negb_false_iff in H
         | H : _ && _ = true |- _ => apply andb_true_iff in H; destruct H
         | H : _ || _ = false |- _ => apply orb_false_iff in H; destruct H
         | H : (_ =? _) = true |- _ => apply Z.eqb_eq in H
         | H : (_ =? _) = false |- _ => apply Z.eqb_neq in H
         | H : (_ >? _) = true |- _ => rewrite Z.gtb_ltb in H; apply Z.ltb_lt in H
         | H : (_ >? _) = false |- _ => rewrite Z.gtb_ltb in H; apply Z.ltb_ge in H
         | H : (_ >=? _) = true |- _ => rewrite Z.geb_leb in H; apply Z.leb_le in H
         | H : (_ >=? _) = false |- _ => rewrite Z.geb_leb in H; apply Z.leb_gt in H
         | H : (_ <? _) = true |- _ => apply Z.ltb_lt in H
         | H : (_ <? _) = false |- _ => apply Z.ltb_ge in H
         | H : (_ <=? _) = true |- _ => apply Z.leb_le in H
         | H : (_ <=? _) = false |- _ => apply Z.leb_gt in H
         end.

(** ** The star key *)

(** C1 (as amended): from every state, the star key leaves the gate closed,
    the suspension off with its start time cleared, and the alarm silent;
    the editing flag and the accumulator of a numeric entry in progress are
    left as they were. *)
Theorem processKeypadStar_clears (w : World) :
  let g := mem w in
  let g' := mem (after (processKeypadStar w)) in
  gateOpen g' = false
  /\ totalSuspendTime g' = SUSPEND_OFF
  /\ suspendStartTime g' = 0
  /\ alarmSounding g' = false
  /\ isUpdatingSuspendTime g' = isUpdatingSuspendTime g
  /\ suspendTimeAccumulator g' = suspendTimeAccumulator g.
Proof.
  intros g g'. subst g g'. wp_start processKeypadStar w.
  wp_run; repeat split; auto.
Qed.

(** C1 (as stated) fails: after the keys 5 and * the entry is still being
    edited, with 5 in the accumulator. *)
Lemma processKeypadStar_keeps_entry :
  let w := after ((loop hw_millis false "5" ;; loop hw_millis false "*") idle_world) in
  isUpdatingSuspendTime (mem w) = true
  /\ suspendTimeAccumulator (mem w) = 5
  /\ ~ (isUpdatingSuspendTime (mem w) = false /\ suspendTimeAccumulator (mem w) = 0).
Proof.
  vm_compute. repeat split; intros [H _]; discriminate H.
Qed.

(** ** Digit keys *)

(** What a digit key does, in full. *)
Lemma processKeypadDigit_run (w : World) (digit : Z) :
  after (processKeypadDigit digit w) =
  mkWorld
    (set_isUpdatingSuspendTime true
       (set_suspendTimeAccumulator
          (if isUpdatingSuspendTime (mem w)
           then slong (suspendTimeAccumulator (mem w) * 10 + digit)
           else digit)
          (mem w)))
    (clk w).
Proof.
  destruct w as [g c]. destruct g. cbn [mem clk isUpdatingSuspendTime].
  match goal with
  | |- after (_ ?w) = _ => wp_start (processKeypadDigit digit) w
  end.
  wp_run; reflexivity.
Qed.

(** C10: a digit key changes the accumulator and the editing flag and no
    other global; in particular the gate flag, the alarm flag, the suspend
    time and its start time are as before, so the suspension check of the
    same pass sees the suspension it saw before the key.  The handler does
    not read the clock.  [loop()] hands each of the keys 0 to 9 to this
    handler with the digit's value. *)
Theorem processKeypadDigit_frame (w : World) (digit : Z) :
  let g := mem w in
  let w' := after (processKeypadDigit digit w) in
  let g' := mem w' in
  gateOpen g' = gateOpen g
  /\ alarmSounding g' = alarmSounding g
  /\ totalSuspendTime g' = totalSuspendTime g
  /\ suspendStartTime g' = suspendStartTime g
  /\ g' = set_isUpdatingSuspendTime (isUpdatingSuspendTime g')
            (set_suspendTimeAccumulator (suspendTimeAccumulator g') g)
  /\ clk w' = clk w
  /\ Forall (fun key =>
               0 <= keypadValue key <= 9
               /\ loop_keypad hw_millis key = processKeypadDigit (keypadValue key))
            digit_keys.
Proof.
  intros g w' g'. subst g w' g'.
  split; [| split; [| split; [| split; [| split; [| split]]]]].
  1-6: wp_start (processKeypadDigit digit) w; wp_run; repeat split; auto.
  unfold digit_keys.
  repeat (constructor; [split; [vm_compute; split; discriminate | reflexivity] |]).
  constructor.
Qed.

(** ** The hash key *)

(** C8: with no entry in progress the hash key sets the infinite suspension,
    clears the suspension start time, switches the backlight on and restarts
    the backlight timeout from the clock reading it takes. *)
Theorem processKeypadHash_infinite (w : World) :
  isUpdatingSuspendTime (mem w) = false ->
  let r := processKeypadHash hw_millis w in
  totalSuspendTime (mem (after r)) = SUSPEND_INFINITE
  /\ suspendStartTime (mem (after r)) = 0
  /\ alarmSounding (mem (after r)) = false
  /\ In LcdBacklight (emitted r)
  /\ lcdBacklightTimeoutStartTime (mem (after r)) = value (hw_millis w).
Proof.
  intros He r. subst r. wp_start (processKeypadHash hw_millis) w.
  wp_run; repeat split; auto; cbn; auto.
Qed.

Lemma processKeypadHash_infinite_witness :
  isUpdatingSuspendTime (mem alarmed_world) = false
  /\ alarmSounding (mem alarmed_world) = true
  /\ totalSuspendTime (mem (after (processKeypadHash hw_millis alarmed_world)))
     = SUSPEND_INFINITE.
Proof.
  split; [reflexivity | split; [reflexivity |]].
  exact (proj1 (processKeypadHash_infinite alarmed_world eq_refl)).
Defined.

(** C7: the entry 0 followed by # turns the suspension off, ends the entry
    with the accumulator at 0 and, when the gate is open, leaves the alarm
    sounding, the buzzer being switched on if it was silent. *)
Theorem zero_entry_cancels_suspension (w : World) :
  isUpdatingSuspendTime (mem w) = false ->
  let r := (processKeypadDigit 0 ;; processKeypadHash hw_millis) w in
  totalSuspendTime (mem (after r)) = SUSPEND_OFF
  /\ isUpdatingSuspendTime (mem (after r)) = false
  /\ suspendTimeAccumulator (mem (after r)) = 0
  /\ (gateOpen (mem w) = true ->
      alarmSounding (mem (after r)) = true
      /\ (alarmSounding (mem w) = false ->
          In (DigitalWrite ALARM_BUZZER_PIN HIGH) (emitted r))).
Proof.
  intros He r. subst r.
  wp_start (processKeypadDigit 0 ;; processKeypadHash hw_millis) w.
  wp_run; repeat split; intros; bool_facts; try congruence; cbn; auto 20.
Qed.

Lemma zero_entry_cancels_suspension_witness :
  isUpdatingSuspendTime (mem suspended_world) = false
  /\ gateOpen (mem suspended_world) = true
  /\ alarmSounding (mem suspended_world) = false
  /\ alarmSounding
       (mem (after ((processKeypadDigit 0 ;; processKeypadHash hw_millis)
                      suspended_world))) = true.
Proof.
  split; [reflexivity | split; [reflexivity | split; [reflexivity |]]].
  destruct (zero_entry_cancels_suspension suspended_world eq_refl)
    as (_ & _ & _ & H).
  exact (proj1 (H eq_refl)).
Defined.

(** ** The alarm sounds only with the gate open and no suspension *)

Ltac masked_cases :=
  unfold alarm_masked in *; tidy; intros; bool_facts;
  try match goal with
      | H : ?a = true -> _ /\ _, H0 : ?a = true |- _ => destruct (H H0)
      end;
  try discriminate; try (split; congruence); auto.

Lemma alarm_masked_view (g g' : Machine) :
  alarm_view g = alarm_view g' -> alarm_masked g -> alarm_masked g'.
Proof.
  unfold alarm_view, alarm_masked. intros H. injection H as <- <- <- _ _ _.
  trivial.
Qed.

Lemma alarm_view_eq (g g' : Machine) :
  alarm_view g = alarm_view g' ->
  alarmSounding g = alarmSounding g'
  /\ gateOpen g = gateOpen g'
  /\ totalSuspendTime g = totalSuspendTime g'
  /\ suspendStartTime g = suspendStartTime g'
  /\ suspendTimeAccumulator g = suspendTimeAccumulator g'
  /\ isUpdatingSuspendTime g = isUpdatingSuspendTime g'.
Proof.
  unfold alarm_view. intros H. injection H as H1 H2 H3 H4 H5 H6.
  repeat split; assumption.
Qed.

Lemma keeps_of_frame {A} (c : M A) (P : Machine -> Prop) :
  (forall v, keeps (fun g => alarm_view g = v) c) ->
  (forall g g', alarm_view g = alarm_view g' -> P g -> P g') ->
  keeps P c.
Proof.
  intros Hc HP w Hw. apply (HP (mem w)); [| exact Hw].
  symmetry. exact (Hc (alarm_view (mem w)) w eq_refl).
Qed.

Lemma processKeypadDigit_alarm_masked (digit : Z) :
  keeps alarm_masked (processKeypadDigit digit).
Proof.
  intros w H. wp_start (processKeypadDigit digit) w.
  wp_run; unfold alarm_masked in *; tidy; exact H.
Qed.

Lemma processKeypadHash_alarm_masked :
  keeps alarm_masked (processKeypadHash hw_millis).
Proof.
  intros w H. wp_start (processKeypadHash hw_millis) w.
  wp_run; masked_cases.
Qed.

Lemma processKeypadStar_alarm_masked : keeps alarm_masked processKeypadStar.
Proof.
  intros w H. wp_start processKeypadStar w.
  wp_run; masked_cases.
Qed.

Lemma openGate_alarm_masked : keeps alarm_masked (openGate hw_millis).
Proof.
  intros w H. wp_start (openGate hw_millis) w.
  wp_run; masked_cases.
Qed.

Lemma loop_suspension_alarm_masked :
  keeps alarm_masked (loop_suspension hw_millis).
Proof.
  intros w H. wp_start (loop_suspension hw_millis) w.
  wp_run; masked_cases.
Qed.

Lemma loop_gate_alarm_masked (pressed : bool) :
  keeps alarm_masked (loop_gate hw_millis pressed).
Proof.
  unfold loop_gate. apply keeps_if.
  - apply openGate_alarm_masked.
  - apply keeps_ret.
Qed.

Lemma loop_keypad_alarm_masked (key : ascii) :
  keeps alarm_masked (loop_keypad hw_millis key).
Proof.
  unfold loop_keypad.
  repeat first [apply keeps_if | apply keeps_ret].
  - apply processKeypadDigit_alarm_masked.
  - apply processKeypadHash_alarm_masked.
  - apply processKeypadStar_alarm_masked.
Qed.

Lemma loop_alarm_masked (pressed : bool) (key : ascii) :
  keeps alarm_masked (loop hw_millis pressed key).
Proof.
  unfold loop, loop_upto_backlight.
  apply keeps_bind;
    [| intro; apply keeps_of_frame;
         [apply loop_backlight_frame | apply alarm_masked_view]].
  apply keeps_bind; [apply loop_gate_alarm_masked | intro].
  apply keeps_bind; [apply loop_keypad_alarm_masked | intro].
  apply keeps_bind; [apply loop_suspension_alarm_masked | intro].
  apply keeps_bind;
    [apply keeps_of_frame; [apply loop_display_frame | apply alarm_masked_view]
    | intro].
  apply keeps_bind;
    [apply keeps_of_frame; [apply loop_buzzer_frame | apply alarm_masked_view]
    | intro].
  apply keeps_bind;
    [apply keeps_of_frame; [apply loop_alarm_led_frame | apply alarm_masked_view]
    | intro].
  apply keeps_of_frame; [apply loop_heartbeat_frame | apply alarm_masked_view].
Qed.

Lemma boot_alarm_masked : keeps alarm_masked boot.
Proof. unfold boot, static_init, setup. unfold_sketch. keeps_rules. Qed.

Lemma passes_alarm_masked (inputs : list (bool * ascii)) :
  keeps alarm_masked (passes inputs).
Proof.
  induction inputs as [| [pressed key] rest IH]; cbn [passes].
  - apply keeps_ret.
  - apply keeps_bind; [apply loop_alarm_masked | intro; exact IH].
Qed.

(** The invariant holds in every state the device can reach: after power-on
    and [setup()], and after any number of passes of [loop()], whatever the
    sensor and the keypad answer and however the clock runs. *)
Lemma reachable_alarm_masked (c : Clock) (inputs : list (bool * ascii)) :
  alarm_masked (mem (after ((boot ;; passes inputs) (power_on c)))).
Proof.
  apply keeps_bind.
  - apply boot_alarm_masked.
  - intro. apply passes_alarm_masked.
  - intros H. discriminate H.
Qed.

(** C4: if the alarm-sounding flag implies gate open and suspension off
    before, it does so after each keypad handler, after a sensor event and
    after a whole pass of [loop()], whatever the inputs and the clock. *)
Theorem alarm_masked_preserved
    (w : World) (digit : Z) (pressed : bool) (key : ascii) :
  alarm_masked (mem w) ->
  alarm_masked (mem (after (processKeypadDigit digit w)))
  /\ alarm_masked (mem (after (processKeypadHash hw_millis w)))
  /\ alarm_masked (mem (after (processKeypadStar w)))
  /\ alarm_masked (mem (after (openGate hw_millis w)))
  /\ alarm_masked (mem (after (loop hw_millis pressed key w))).
Proof.
  intros H. split; [| split; [| split; [| split]]].
  - apply processKeypadDigit_alarm_masked, H.
  - apply processKeypadHash_alarm_masked, H.
  - apply processKeypadStar_alarm_masked, H.
  - apply openGate_alarm_masked, H.
  - apply loop_alarm_masked, H.
Qed.

Lemma alarm_masked_preserved_witness :
  alarm_masked (mem alarmed_world)
  /\ alarmSounding (mem alarmed_world) = true
  /\ alarm_masked (mem (after (loop hw_millis false "#" alarmed_world))).
Proof.
  assert (H : alarm_masked (mem alarmed_world)).
  { intros _. split; reflexivity. }
  split; [exact H | split; [reflexivity |]].
  destruct (alarm_masked_preserved alarmed_world 0 false "#" H)
    as (_ & _ & _ & _ & H').
  exact H'.
Defined.

(** ** Suspension timeout *)

Lemma frame_eq {A} (c : M A) (w : World) :
  (forall v, keeps (fun g => alarm_view g = v) c) ->
  alarm_view (mem (after (c w))) = alarm_view (mem w).
Proof. intros H. exact (H (alarm_view (mem w)) w eq_refl). Qed.

(** After the suspension check, a pass of [loop()] no longer touches the
    alarm logic's globals. *)
Lemma loop_alarm_view (pressed : bool) (key : ascii) (w : World) :
  alarm_view (mem (after (loop hw_millis pressed key w))) =
  alarm_view
    (mem (after ((loop_gate hw_millis pressed ;;
                  loop_keypad hw_millis key ;;
                  loop_suspension hw_millis) w))).
Proof.
  unfold loop, loop_upto_backlight.
  repeat (rewrite after_bind; cbv beta).
  rewrite (frame_eq (loop_backlight hw_millis)) by apply loop_backlight_frame.
  rewrite (frame_eq (loop_heartbeat hw_millis)) by apply loop_heartbeat_frame.
  rewrite (frame_eq (loop_alarm_led hw_millis)) by apply loop_alarm_led_frame.
  rewrite (frame_eq (loop_buzzer hw_millis)) by apply loop_buzzer_frame.
  rewrite (frame_eq (loop_display hw_millis)) by apply loop_display_frame.
  reflexivity.
Qed.

(** The first three blocks of a pass on a finitely suspended, open gate,
    when the key pressed (if any) is neither # nor *. *)
Lemma loop_suspension_check (w : World) (pressed : bool) (key : ascii) :
  gateOpen (mem w) = true ->
  alarmSounding (mem w) = false ->
  timed (mem w) ->
  keypadValue key <> HASH_KEY ->
  keypadValue key <> STAR_KEY ->
  let now := value (hw_millis w) in
  let r := (loop_gate hw_millis pressed ;;
            loop_keypad hw_millis key ;;
            loop_suspension hw_millis) w in
  let g' := mem (after r) in
  (ulong (now - suspendStartTime (mem w)) <= ulong (totalSuspendTime (mem w)) ->
   totalSuspendTime g' = totalSuspendTime (mem w)
   /\ suspendStartTime g' = suspendStartTime (mem w)
   /\ alarmSounding g' = false)
  /\ (ulong (totalSuspendTime (mem w)) < ulong (now - suspendStartTime (mem w)) ->
      totalSuspendTime g' = SUSPEND_OFF
      /\ alarmSounding g' = true).
Proof.
  intros Hg Ha [Hoff Hinf] Hh Hs now r g'. subst now r g'.
  change (value (hw_millis w)) with (fst (read_clock (clk w))).
  wp_start (loop_gate hw_millis pressed ;;
            loop_keypad hw_millis key ;;
            loop_suspension hw_millis) w.
  wp_run; split; intros; bool_facts; try contradiction; try lia;
    repeat split; auto; congruence.
Qed.

(** The suspension check on its own. *)
Lemma loop_suspension_block (w : World) :
  gateOpen (mem w) = true ->
  alarmSounding (mem w) = false ->
  timed (mem w) ->
  let now := value (hw_millis w) in
  let r := loop_suspension hw_millis w in
  (ulong (now - suspendStartTime (mem w)) <= ulong (totalSuspendTime (mem w)) ->
   mem (after r) = mem w /\ emitted r = [])
  /\ (ulong (totalSuspendTime (mem w)) < ulong (now - suspendStartTime (mem w)) ->
      totalSuspendTime (mem (after r)) = SUSPEND_OFF
      /\ alarmSounding (mem (after r)) = true
      /\ In (DigitalWrite ALARM_BUZZER_PIN HIGH) (emitted r)).
Proof.
  intros Hg Ha [Hoff Hinf] now r. subst now r.
  change (value (hw_millis w)) with (fst (read_clock (clk w))).
  wp_start (loop_suspension hw_millis) w.
  wp_run; split; intros; bool_facts; try contradiction; try lia;
    repeat split; auto; try congruence; cbn; auto 10.
Qed.

(** C5: with the gate open and a finite suspension of [d] ms started at [t]
    in force, the suspension check of [loop()], reading the clock at [now],
    changes nothing when [now - t <= d], and when [now - t > d] clears the
    suspension and sets the alarm sounding, driving the buzzer high.  The
    same holds of a whole pass of [loop()] in which neither # nor * is
    pressed: the suspension stays and the alarm is silent after it in the
    first case, the alarm sounds after it in the second. *)
Theorem suspension_timeout (w : World) :
  let g := mem w in
  gateOpen g = true ->
  alarm_masked g ->
  timed g ->
  let d := ulong (totalSuspendTime g) in
  let t := suspendStartTime g in
  let now := value (hw_millis w) in
  (let r := loop_suspension hw_millis w in
   (ulong (now - t) <= d -> mem (after r) = g /\ emitted r = [])
   /\ (d < ulong (now - t) ->
       totalSuspendTime (mem (after r)) = SUSPEND_OFF
       /\ alarmSounding (mem (after r)) = true
       /\ In (DigitalWrite ALARM_BUZZER_PIN HIGH) (emitted r)))
  /\ (forall (pressed : bool) (key : ascii),
        keypadValue key <> HASH_KEY ->
        keypadValue key <> STAR_KEY ->
        let g' := mem (after (loop hw_millis pressed key w)) in
        (ulong (now - t) <= d ->
         totalSuspendTime g' = totalSuspendTime g
         /\ suspendStartTime g' = t
         /\ timed g'
         /\ alarmSounding g' = false)
        /\ (d < ulong (now - t) ->
            totalSuspendTime g' = SUSPEND_OFF
            /\ alarmSounding g' = true)).
Proof.
  intros g Hg Hm Ht d t now.
  assert (Ha : alarmSounding g = false).
  { destruct (alarmSounding g) eqn:E; [| reflexivity].
    destruct (Hm E) as [_ Hoff]. destruct Ht as [Hne _]. contradiction. }
  split; [exact (loop_suspension_block w Hg Ha Ht) |].
  intros pressed key Hh Hs g'.
  destruct (alarm_view_eq _ _ (loop_alarm_view pressed key w))
    as (Hv1 & _ & Hv3 & Hv4 & _ & _).
  destruct (loop_suspension_check w pressed key Hg Ha Ht Hh Hs) as [Hle Hgt].
  subst g' d t now g. split; intros Hcmp.
  - destruct (Hle Hcmp) as (H1 & H2 & H3).
    unfold timed. rewrite Hv1, Hv3, Hv4, H1, H2, H3. auto.
  - destruct (Hgt Hcmp) as (H1 & H2).
    rewrite Hv1, Hv3, H1, H2. auto.
Qed.

Lemma suspension_timeout_witness :
  gateOpen (mem (timed_world 60000)) = true
  /\ totalSuspendTime (mem (timed_world 60000)) = 60000
  /\ suspendStartTime (mem (timed_world 60000)) = 0
  /\ alarmSounding
       (mem (after (loop hw_millis false NO_KEY (timed_world 60000)))) = false.
Proof.
  split; [reflexivity | split; [reflexivity | split; [reflexivity |]]].
  assert (Hm : alarm_masked (mem (timed_world 60000))).
  { intros H. vm_compute in H. discriminate H. }
  assert (Ht : timed (mem (timed_world 60000))).
  { split; vm_compute; discriminate. }
  assert (Hh : keypadValue NO_KEY <> HASH_KEY) by (vm_compute; discriminate).
  assert (Hs : keypadValue NO_KEY <> STAR_KEY) by (vm_compute; discriminate).
  destruct (suspension_timeout (timed_world 60000) eq_refl Hm Ht) as [_ Hloop].
  destruct (Hloop false NO_KEY Hh Hs) as [Hle _].
  apply Hle. vm_compute. discriminate.
Defined.

(** One millisecond after the minute has run out the alarm sounds again. *)
Example suspension_expired_run :
  let r := loop hw_millis false NO_KEY (timed_world 60001) in
  alarmSounding (mem (after r)) = true
  /\ totalSuspendTime (mem (after r)) = SUSPEND_OFF
  /\ In (DigitalWrite ALARM_BUZZER_PIN HIGH) (emitted r).
Proof. vm_compute. auto 10. Qed.

(** ** Timed suspension entered on the keypad *)

Lemma digits_value_ge (ds : list Z) (a : Z) :
  0 <= a -> Forall is_digit ds -> a <= digits_value a ds.
Proof.
  revert a. induction ds as [| d ds IH]; intros a Ha Hds; cbn.
  - lia.
  - inversion Hds as [| ? ? Hd Hrest]; subst. unfold is_digit in Hd.
    specialize (IH (a * 10 + d)). unfold digits_value in IH.
    assert (a * 10 + d <= fold_left (fun a0 d0 => a0 * 10 + d0) ds (a * 10 + d))
      by (apply IH; [lia | assumption]).
    lia.
Qed.

(** Digits pressed while an entry is being edited extend it in base 10, as
    long as the value fits a [long]; nothing else changes and the clock is
    not read. *)
Lemma press_digits_editing (ds : list Z) (w : World) :
  isUpdatingSuspendTime (mem w) = true ->
  0 <= suspendTimeAccumulator (mem w) ->
  Forall is_digit ds ->
  digits_value (suspendTimeAccumulator (mem w)) ds < 2 ^ 31 ->
  mem (after (press_digits ds w)) =
    set_suspendTimeAccumulator
      (digits_value (suspendTimeAccumulator (mem w)) ds) (mem w)
  /\ clk (after (press_digits ds w)) = clk w.
Proof.
  revert w. induction ds as [| d ds IH]; intros w He Ha Hds Hlt.
  - cbn. split; [| reflexivity]. destruct (mem w); reflexivity.
  - inversion Hds as [| ? ? Hd Hrest]; subst.
    change (press_digits (d :: ds)) with (processKeypadDigit d ;; press_digits ds).
    rewrite after_bind.
    rewrite processKeypadDigit_run, He.
    assert (Hrange : 0 <= suspendTimeAccumulator (mem w) * 10 + d < 2 ^ 31).
    { unfold is_digit in Hd. split; [lia |].
      cbn [digits_value fold_left] in Hlt.
      assert (suspendTimeAccumulator (mem w) * 10 + d
              <= digits_value (suspendTimeAccumulator (mem w) * 10 + d) ds)
        by (apply digits_value_ge; [lia | assumption]).
      unfold digits_value in *. lia. }
    rewrite slong_small by exact Hrange.
    match goal with
    | |- context [press_digits ds ?w1] => destruct (IH w1) as [IHm IHc]
    end.
    + reflexivity.
    + cbn. lia.
    + exact Hrest.
    + cbn - [Z.pow]. exact Hlt.
    + rewrite IHm, IHc. split; [| reflexivity].
      clear - He. destruct w as [g c]. destruct g. tidy. subst. reflexivity.
Qed.

(** The hash key that ends an entry of [n] minutes, [n] small enough for
    the milliseconds to fit an [unsigned long]. *)
Lemma processKeypadHash_timed (w : World) :
  isUpdatingSuspendTime (mem w) = true ->
  0 < suspendTimeAccumulator (mem w) ->
  suspendTimeAccumulator (mem w) * MILLIS_PER_MINUTE < 2 ^ 32 ->
  let r := processKeypadHash hw_millis w in
  let g' := mem (after r) in
  ulong (totalSuspendTime g') = suspendTimeAccumulator (mem w) * MILLIS_PER_MINUTE
  /\ timed g'
  /\ suspendStartTime g' = value (hw_millis w)
  /\ alarmSounding g' = false
  /\ isUpdatingSuspendTime g' = false
  /\ suspendTimeAccumulator g' = 0
  /\ (alarmSounding (mem w) = true ->
      In (DigitalWrite ALARM_BUZZER_PIN LOW) (emitted r)).
Proof.
  intros He Hpos Hfit r g'. subst r g'.
  set (n := suspendTimeAccumulator (mem w)) in *.
  assert (Hms : ulong (slong (ulong (ulong n * MILLIS_PER_MINUTE)))
                = n * MILLIS_PER_MINUTE).
  { rewrite ulong_slong. rewrite MILLIS_PER_MINUTE_value in *.
    rewrite (ulong_small n) by lia.
    rewrite (ulong_small (n * 60000)) by lia.
    apply ulong_small. lia. }
  assert (Hoff : slong (ulong (ulong n * MILLIS_PER_MINUTE)) <> SUSPEND_OFF).
  { intros H. rewrite H in Hms.
    change (ulong SUSPEND_OFF) with 0 in Hms.
    rewrite MILLIS_PER_MINUTE_value in Hms. lia. }
  assert (Hinf : slong (ulong (ulong n * MILLIS_PER_MINUTE)) <> SUSPEND_INFINITE).
  { intros H. rewrite H in Hms.
    change (ulong SUSPEND_INFINITE) with 4294967295 in Hms.
    rewrite MILLIS_PER_MINUTE_value in Hms. lia. }
  change (value (hw_millis w)) with (fst (read_clock (clk w))).
  wp_start (processKeypadHash hw_millis) w. unfold timed.
  wp_run; bool_facts; try contradiction; try lia;
    repeat split; auto; try congruence; intros; cbn; auto 20.
Qed.

(** C6 (as amended): starting with no entry in progress, the digits
    [d :: ds] build the base-10 number [n] in the accumulator; when
    [n > 0] and [n] minutes in milliseconds fit an [unsigned long]
    ([n <= 71582]) the # key that follows sets a finite suspension whose
    duration, read as the timeout check reads it, is [n] minutes, starting at
    the clock reading the handler takes; it leaves the alarm silent (the
    buzzer driven low if it was sounding), ends the entry and zeroes the
    accumulator. *)
Theorem timed_entry (w : World) (d : Z) (ds : list Z) :
  isUpdatingSuspendTime (mem w) = false ->
  Forall is_digit (d :: ds) ->
  let n := digits_value 0 (d :: ds) in
  0 < n ->
  n * MILLIS_PER_MINUTE < 2 ^ 32 ->
  let w1 := after (press_digits (d :: ds) w) in
  let r := processKeypadHash hw_millis w1 in
  let g' := mem (after r) in
  suspendTimeAccumulator (mem w1) = n
  /\ isUpdatingSuspendTime (mem w1) = true
  /\ ulong (totalSuspendTime g') = n * MILLIS_PER_MINUTE
  /\ timed g'
  /\ suspendStartTime g' = value (hw_millis w)
  /\ alarmSounding g' = false
  /\ isUpdatingSuspendTime g' = false
  /\ suspendTimeAccumulator g' = 0
  /\ (alarmSounding (mem w) = true ->
      In (DigitalWrite ALARM_BUZZER_PIN LOW) (emitted r)).
Proof.
  intros He Hds n Hpos Hfit w1 r g'.
  inversion Hds as [| ? ? Hd Hrest]; subst.
  assert (Hn : n = digits_value d ds) by reflexivity.
  assert (Hw1 : mem w1 = set_suspendTimeAccumulator n
                           (set_isUpdatingSuspendTime true (mem w))
                /\ clk w1 = clk w).
  { subst w1.
    change (press_digits (d :: ds)) with (processKeypadDigit d ;; press_digits ds).
    rewrite after_bind.
    rewrite processKeypadDigit_run, He.
    match goal with
    | |- context [press_digits ds ?w0] =>
        destruct (press_digits_editing ds w0) as [Hm Hc]
    end.
    - reflexivity.
    - cbn. unfold is_digit in Hd. lia.
    - exact Hrest.
    - cbn - [Z.pow]. rewrite <- Hn. rewrite MILLIS_PER_MINUTE_value in Hfit. lia.
    - rewrite Hm, Hc. cbn. rewrite <- Hn. split; reflexivity. }
  destruct Hw1 as [Hm Hc].
  assert (Hacc : suspendTimeAccumulator (mem w1) = n) by (rewrite Hm; reflexivity).
  assert (Hed : isUpdatingSuspendTime (mem w1) = true) by (rewrite Hm; reflexivity).
  assert (Hal : alarmSounding (mem w1) = alarmSounding (mem w))
    by (rewrite Hm; reflexivity).
  assert (Hclock : value (hw_millis w1) = value (hw_millis w))
    by (unfold hw_millis; cbn [value]; rewrite Hc; reflexivity).
  destruct (processKeypadHash_timed w1 Hed) as (H1 & H2 & H3 & H4 & H5 & H6 & H7).
  - rewrite Hacc. exact Hpos.
  - rewrite Hacc. exact Hfit.
  - subst r g'. rewrite Hacc in H1. rewrite Hclock in H3. rewrite Hal in H7.
    repeat split; try assumption; apply H2.
Qed.

Lemma timed_entry_witness :
  let w := at_time 5000 alarmed_world in
  let r := processKeypadHash hw_millis (after (press_digits [1; 2] w)) in
  isUpdatingSuspendTime (mem w) = false
  /\ alarmSounding (mem w) = true
  /\ ulong (totalSuspendTime (mem (after r))) = 12 * MILLIS_PER_MINUTE
  /\ suspendStartTime (mem (after r)) = 5000
  /\ alarmSounding (mem (after r)) = false.
Proof.
  split; [reflexivity | split; [reflexivity |]].
  assert (Hds : Forall is_digit [1; 2])
    by (repeat constructor; unfold is_digit; lia).
  destruct (timed_entry (at_time 5000 alarmed_world) 1 [2] eq_refl Hds
              eq_refl eq_refl)
    as (_ & _ & H1 & _ & H2 & H3 & _).
  split; [exact H1 | split; [exact H2 | exact H3]].
Defined.

(** C6 (as stated) fails: 71583 minutes do not fit, and the keys
    7 1 5 8 3 # leave a suspension of 12704 ms. *)
Lemma timed_entry_wraps :
  let w1 := after (press_digits [7; 1; 5; 8; 3] idle_world) in
  let g' := mem (after (processKeypadHash hw_millis w1)) in
  suspendTimeAccumulator (mem w1) = 71583
  /\ totalSuspendTime g' = 12704
  /\ ulong (totalSuspendTime g') <> 71583 * MILLIS_PER_MINUTE.
Proof. vm_compute. repeat split; discriminate. Qed.

(** ** Backlight timeout *)

Lemma loop_upto_backlight_quiet (pressed : bool) (key : ascii) :
  never_emits LcdNoBacklight (loop_upto_backlight hw_millis pressed key).
Proof. unfold_sketch. never_emits_rules. Qed.

Lemma backlight_due_spec (t : Z) (g : Machine) :
  backlight_due t g = true <->
  LCD_BACKLIGHT_TIMEOUT <= ulong (t - lcdBacklightTimeoutStartTime g)
  /\ gateOpen g = false
  /\ (totalSuspendTime g = SUSPEND_OFF \/ totalSuspendTime g = SUSPEND_INFINITE)
  /\ isUpdatingSuspendTime g = false.
Proof.
  unfold backlight_due.
  rewrite !andb_true_iff, orb_true_iff, !negb_true_iff, negb_false_iff.
  rewrite Z.geb_leb, Z.leb_le, !Z.eqb_eq. tauto.
Qed.

Lemma loop_backlight_run (w : World) :
  let r := loop_backlight hw_millis w in
  if backlight_due (value (hw_millis w)) (mem w)
  then emitted r = [LcdNoBacklight]
       /\ mem (after r) = set_lcdBacklightTimeoutStartTime 0 (mem w)
  else emitted r = [] /\ mem (after r) = mem w.
Proof.
  intros r. subst r.
  change (value (hw_millis w)) with (fst (read_clock (clk w))).
  wp_start (loop_backlight hw_millis) w.
  wp_run; split; reflexivity.
Qed.

(** C3: a pass of [loop()] switches the backlight off exactly when, at the
    backlight check, the clock reading is at least 10000 ms past the
    backlight reference, the gate is closed, the suspension is off or
    infinite, and no entry is being edited; no other part of the pass
    switches it off.  The check changes none of the globals it tests. *)
Theorem backlight_auto_off (w : World) (pressed : bool) (key : ascii) :
  let w1 := after (loop_upto_backlight hw_millis pressed key w) in
  let g := mem w1 in
  let now := value (hw_millis w1) in
  let r := loop hw_millis pressed key w in
  (In LcdNoBacklight (emitted r) <->
     LCD_BACKLIGHT_TIMEOUT <= ulong (now - lcdBacklightTimeoutStartTime g)
     /\ gateOpen g = false
     /\ (totalSuspendTime g = SUSPEND_OFF \/ totalSuspendTime g = SUSPEND_INFINITE)
     /\ isUpdatingSuspendTime g = false)
  /\ gateOpen (mem (after r)) = gateOpen g
  /\ totalSuspendTime (mem (after r)) = totalSuspendTime g
  /\ isUpdatingSuspendTime (mem (after r)) = isUpdatingSuspendTime g
  /\ (In LcdNoBacklight (emitted r) ->
      lcdBacklightTimeoutStartTime (mem (after r)) = 0).
Proof.
  intros w1 g now r.
  subst r. unfold loop. rewrite emitted_bind, after_bind. fold w1.
  pose proof (loop_upto_backlight_quiet pressed key w) as Hquiet.
  pose proof (loop_backlight_run w1) as Hrun. cbv zeta in Hrun.
  pose proof (backlight_due_spec now g) as Hspec.
  fold g now in Hrun.
  destruct (backlight_due now g); destruct Hrun as [He Hm]; rewrite He, Hm.
  - split; [| repeat split; reflexivity].
    split; [intros _; apply Hspec; reflexivity |].
    intros _. apply in_or_app. right. left. reflexivity.
  - split; [| repeat split; try reflexivity].
    + split.
      * intros Hin. apply in_app_or in Hin. destruct Hin as [Hin | []].
        contradiction.
      * intros Hc. apply Hspec in Hc. discriminate Hc.
    + intros Hin. apply in_app_or in Hin. destruct Hin as [Hin | []].
      contradiction.
Qed.

(** ** Buzzer pulse *)

Lemma steady_reading (now : Z) (w : World) :
  steady now (clk w) ->
  value (hw_millis w) = now /\ steady now (clk (after (hw_millis w))).
Proof.
  intros Hs.
  destruct (agree_millis now w w eq_refl Hs) as (Hv & _ & _ & Hs').
  split; assumption.
Qed.

(** Activating the alarm starts a cycle: the buzzer is driven high and the
    reference is the clock reading taken then. *)
Lemma activateAlarm_starts_cycle (w : World) :
  gateOpen (mem w) = true ->
  alarmSounding (mem w) = false ->
  let r := activateAlarm hw_millis w in
  alarmSounding (mem (after r)) = true
  /\ alarmBuzzerPulseStartTime (mem (after r)) = value (hw_millis w)
  /\ In (DigitalWrite ALARM_BUZZER_PIN HIGH) (emitted r).
Proof.
  intros Hg Ha r. subst r.
  change (value (hw_millis w)) with (fst (read_clock (clk w))).
  wp_start (activateAlarm hw_millis) w.
  wp_run; bool_facts; try congruence; repeat split; cbn; auto.
Qed.

(** C9: while the alarm sounds, the buzzer block of [loop()] compares the
    time elapsed since the buzzer reference with the 2500 ms cycle: beyond
    it, the reference is set to the clock and the pin is not written; up to
    it, the pin is driven high when less than 1500 ms have elapsed and low
    otherwise.  Each comparison uses the clock reading it takes; on a clock
    that stands at [now] during the block both are [now]. *)
Theorem buzzer_pulse (w : World) :
  alarmSounding (mem w) = true ->
  let start := alarmBuzzerPulseStartTime (mem w) in
  let t1 := value (hw_millis w) in
  let t2 := value (hw_millis (after (hw_millis w))) in
  let r := loop_buzzer hw_millis w in
  (2500 < ulong (t1 - start) ->
   emitted r = []
   /\ alarmBuzzerPulseStartTime (mem (after r)) = t2)
  /\ (ulong (t1 - start) <= 2500 -> ulong (t2 - start) < 1500 ->
      emitted r = [DigitalWrite ALARM_BUZZER_PIN HIGH]
      /\ alarmBuzzerPulseStartTime (mem (after r)) = start)
  /\ (ulong (t1 - start) <= 2500 -> 1500 <= ulong (t2 - start) ->
      emitted r = [DigitalWrite ALARM_BUZZER_PIN LOW]
      /\ alarmBuzzerPulseStartTime (mem (after r)) = start)
  /\ (forall now, steady now (clk w) -> t1 = now /\ t2 = now).
Proof.
  intros Ha start t1 t2 r. subst start t1 t2 r.
  change (value (hw_millis (after (hw_millis w))))
    with (fst (read_clock (snd (read_clock (clk w))))).
  change (value (hw_millis w)) with (fst (read_clock (clk w))).
  assert (Hcycle : ALARM_BUZZER_CYCLE_TIME = 2500) by reflexivity.
  assert (Hon : ALARM_BUZZER_ON_TIME = 1500) by reflexivity.
  split; [| split; [| split]].
  1-3: wp_start (loop_buzzer hw_millis) w;
       wp_run; intros; bool_facts; try lia; split; reflexivity.
  intros now Hs. destruct (steady_reading now w Hs) as [H1 Hs'].
  destruct (steady_reading now _ Hs') as [H2 _]. split; assumption.
Qed.

Lemma buzzer_pulse_witness :
  let w := at_time 1499 alarmed_world in
  alarmSounding (mem w) = true
  /\ alarmBuzzerPulseStartTime (mem w) = 0
  /\ emitted (loop_buzzer hw_millis w) = [DigitalWrite ALARM_BUZZER_PIN HIGH].
Proof.
  split; [reflexivity | split; [reflexivity |]].
  destruct (buzzer_pulse (at_time 1499 alarmed_world) eq_refl) as (_ & H & _).
  apply H.
  - vm_compute. discriminate.
  - vm_compute. reflexivity.
Defined.

(** The buzzer over one cycle, the alarm having been activated at time 0:
    high up to 1499 ms, low from 1500 ms to 2500 ms, untouched by the pass
    that restarts the cycle, high again after it. *)
Example buzzer_cycle_run :
  buzzer_runs [0; 1499; 1500; 2500; 2501; 2502] (mem alarmed_world) =
  [ [DigitalWrite ALARM_BUZZER_PIN HIGH];
    [DigitalWrite ALARM_BUZZER_PIN HIGH];
    [DigitalWrite ALARM_BUZZER_PIN LOW];
    [DigitalWrite ALARM_BUZZER_PIN LOW];
    [];
    [DigitalWrite ALARM_BUZZER_PIN HIGH] ].
Proof. vm_compute. reflexivity. Qed.

(** ** One clock reading per pass *)

(** On a clock that stands at [t], the pass as written and the pass on the
    timestamp [t] do the same. *)
Lemma loop_agree (t : Z) (pressed : bool) (key : ascii) :
  agree t (loop hw_millis pressed key) (loop (ret t) pressed key).
Proof. unfold_sketch. agree_rules. Qed.

(** C2 (as amended): when the clock does not advance during the pass, the
    loop body as written leaves the same globals and makes the same hardware
    calls as the loop body in which every [millis()] is replaced by one
    timestamp read when the pass starts. *)
Theorem loop_single_read_refines
    (w : World) (pressed : bool) (key : ascii) (t : Z) :
  steady t (clk w) ->
  observable (loop hw_millis pressed key w) =
  observable (loop_single_read pressed key w).
Proof.
  intros Hs. unfold observable, loop_single_read.
  rewrite after_bind, emitted_bind.
  destruct (steady_reading t w Hs) as [Hv _]. rewrite Hv.
  destruct (loop_agree t pressed key w (after (hw_millis w)) eq_refl Hs)
    as (_ & Hm & He & _).
  rewrite Hm, He. reflexivity.
Qed.

Lemma loop_single_read_refines_witness :
  let w := at_time 2300 idle_world in
  steady 2300 (clk w)
  /\ observable (loop hw_millis false NO_KEY w) =
     observable (loop_single_read false NO_KEY w).
Proof.
  assert (Hs : steady 2300 (clk (at_time 2300 idle_world))).
  { split; [constructor | intros _; reflexivity]. }
  split; [exact Hs |].
  exact (loop_single_read_refines (at_time 2300 idle_world) false NO_KEY 2300 Hs).
Defined.

(** C2 (as stated) fails: with the clock advancing by a millisecond between
    calls, the first pass after [setup()] stores three different readings
    where the single-reading pass stores one. *)
Lemma loop_single_read_differs :
  let r := loop hw_millis false NO_KEY running_world in
  let r1 := loop_single_read false NO_KEY running_world in
  lcdBacklightTimeoutStartTime (mem (after r)) = 2301
  /\ lastDisplayUpdate (mem (after r)) = 2302
  /\ lastDisplayUpdate (mem (after r1)) = 2300
  /\ observable r <> observable r1.
Proof.
  vm_compute. repeat split. intros H. discriminate H.
Qed.

(** * Further properties of the sketch *)

(** ** keypadValue *)

(** keypadValue maps the ten digit keys, and only them, into 0..9 (a digit
    key to its own digit), "#" and only "#" to HASH_KEY, "*" and only "*"
    to STAR_KEY, and every other character, the bytes above 127 included, to
    INVALID_KEY. *)
Theorem keypadValue_classifies (key : ascii) :
  (0 <= keypadValue key <= 9 <-> In key digit_keys)
  /\ (In key digit_keys ->
      ascii_of_N (Z.to_N (keypadValue key + 48)) = key)
  /\ (keypadValue key = HASH_KEY <-> key = "#"%char)
  /\ (keypadValue key = STAR_KEY <-> key = "*"%char)
  /\ (keypadValue key = INVALID_KEY <->
      ~ In key digit_keys /\ key <> "#"%char /\ key <> "*"%char).
Proof.
  destruct key as [b0 b1 b2 b3 b4 b5 b6 b7].
  destruct b0, b1, b2, b3, b4, b5, b6, b7; vm_compute;
    intuition (try discriminate; try congruence).
Qed.

(** ** Keys that are not on the keypad *)

Lemma loop_keypad_invalid (key : ascii) :
  keypadValue key = INVALID_KEY -> loop_keypad hw_millis key = skip.
Proof.
  intros H. unfold loop_keypad. rewrite H.
  destruct (negb (char_code key =? 0)); reflexivity.
Qed.

(** A key code that keypadValue calls invalid is ignored: the pass of
    [loop()] that receives it does exactly what it does when no key is
    pressed. *)
Theorem invalid_key_is_no_key (key : ascii) (pressed : bool) (w : World) :
  keypadValue key = INVALID_KEY ->
  loop hw_millis pressed key w = loop hw_millis pressed NO_KEY w.
Proof.
  intros H. unfold loop, loop_upto_backlight.
  rewrite (loop_keypad_invalid key H).
  rewrite (loop_keypad_invalid NO_KEY eq_refl).
  reflexivity.
Qed.

Lemma invalid_key_is_no_key_witness :
  keypadValue "A" = INVALID_KEY
  /\ loop hw_millis true "A" idle_world = loop hw_millis true NO_KEY idle_world.
Proof.
  split; [reflexivity |].
  exact (invalid_key_is_no_key "A" true idle_world eq_refl).
Defined.

(** ** The gate flag *)

Lemma loop_gate_gateOpen (pressed : bool) (w : World) :
  gateOpen (mem (after (loop_gate hw_millis pressed w))) =
  gateOpen (mem w) || pressed.
Proof.
  wp_start (loop_gate hw_millis pressed) w.
  wp_run; bool_facts; subst;
    repeat match goal with
           | H : gateOpen _ = _ |- _ => rewrite H
           end;
    rewrite ?orb_false_r, ?orb_true_r; reflexivity.
Qed.

Lemma keypadValue_no_key (key : ascii) :
  char_code key = 0 -> keypadValue key = INVALID_KEY.
Proof. intros H. unfold keypadValue. rewrite H. reflexivity. Qed.

Lemma loop_keypad_gateOpen (key : ascii) (w : World) :
  gateOpen (mem (after (loop_keypad hw_millis key w))) =
  if keypadValue key =? STAR_KEY then false else gateOpen (mem w).
Proof.
  wp_start (loop_keypad hw_millis key) w.
  wp_run; bool_facts;
    try match goal with
        | H : char_code key = 0 |- _ =>
            rewrite (keypadValue_no_key key H)
        end;
    try reflexivity;
    destruct (keypadValue key =? STAR_KEY) eqn:Hstar; bool_facts;
    unfold HASH_KEY, STAR_KEY in *; try reflexivity; try lia; congruence.
Qed.

Lemma loop_suspension_gateOpen (v : bool) :
  keeps (fun g => gateOpen g = v) (loop_suspension hw_millis).
Proof. unfold_sketch. keeps_rules. Qed.

Lemma loop_gateOpen (pressed : bool) (key : ascii) (w : World) :
  gateOpen (mem (after (loop hw_millis pressed key w))) =
  if keypadValue key =? STAR_KEY then false else gateOpen (mem w) || pressed.
Proof.
  destruct (alarm_view_eq _ _ (loop_alarm_view pressed key w))
    as (_ & Hg & _).
  rewrite Hg. repeat (rewrite after_bind; cbv beta).
  rewrite (loop_suspension_gateOpen _ _ eq_refl).
  rewrite loop_keypad_gateOpen, loop_gate_gateOpen. reflexivity.
Qed.

(** The gate flag is sticky: after a pass of [loop()] it is false if the
    star key was pressed in that pass, and otherwise true exactly when it
    was true before or the sensor reported the gate open; no other key, no
    timeout and no timer clears or sets it. *)
Theorem gate_flag_after_pass (pressed : bool) (key : ascii) (w : World) :
  gateOpen (mem (after (loop hw_millis pressed key w))) =
    (if keypadValue key =? STAR_KEY then false else gateOpen (mem w) || pressed)
  /\ forall inputs : list (bool * ascii),
       Forall (fun i => keypadValue (snd i) <> STAR_KEY) inputs ->
       gateOpen (mem (after (passes inputs w))) =
       gateOpen (mem w) || existsb fst inputs.
Proof.
  split; [apply loop_gateOpen |].
  intros inputs. revert w.
  induction inputs as [| [p k] rest IH]; intros w Hall.
  - cbn. rewrite orb_false_r. reflexivity.
  - inversion Hall as [| ? ? Hk Hrest]; subst. cbn [snd] in Hk.
    cbn [passes existsb fst]. rewrite after_bind, IH by exact Hrest.
    rewrite loop_gateOpen.
    apply Z.eqb_neq in Hk. rewrite Hk.
    rewrite orb_assoc. reflexivity.
Qed.

(** ** openGate *)

(** Opening a closed gate while the alarm is silent: the gate flag is set,
    the alarm LED is driven high and its pulse restarted from the clock, and
    the alarm starts sounding, with the buzzer driven high, exactly when no
    suspension is in force; under a suspension the buzzer is not touched. *)
Theorem openGate_on_closed_gate (w : World) :
  gateOpen (mem w) = false ->
  alarmSounding (mem w) = false ->
  let r := openGate hw_millis w in
  let g' := mem (after r) in
  gateOpen g' = true
  /\ In (DigitalWrite ALARM_LED_PIN HIGH) (emitted r)
  /\ alarmLEDPulseStartTime g' = value (hw_millis w)
  /\ totalSuspendTime g' = totalSuspendTime (mem w)
  /\ alarmSounding g' = (totalSuspendTime (mem w) =? SUSPEND_OFF)
  /\ (In (DigitalWrite ALARM_BUZZER_PIN HIGH) (emitted r) <->
      totalSuspendTime (mem w) = SUSPEND_OFF)
  /\ ~ In (DigitalWrite ALARM_BUZZER_PIN LOW) (emitted r).
Proof.
  intros Hg Ha r g'. subst r g'.
  change (value (hw_millis w)) with (fst (read_clock (clk w))).
  wp_start (openGate hw_millis) w.
  wp_run; bool_facts; try congruence;
    repeat match goal with
           | H : totalSuspendTime _ = _ |- _ => rewrite H
           | H : totalSuspendTime _ <> _ |- _ =>
               rewrite (proj2 (Z.eqb_neq _ _) H)
           end;
    repeat split; try reflexivity; try assumption;
    cbn; intuition (try discriminate; try congruence).
Qed.

Lemma openGate_on_closed_gate_witness :
  gateOpen (mem idle_world) = false
  /\ alarmSounding (mem idle_world) = false
  /\ alarmSounding (mem (after (openGate hw_millis idle_world))) = true.
Proof.
  split; [reflexivity | split; [reflexivity |]].
  destruct (openGate_on_closed_gate idle_world eq_refl eq_refl)
    as (_ & _ & _ & _ & H & _).
  exact H.
Defined.

Lemma openGate_opens (w : World) :
  gateOpen (mem (after (openGate hw_millis w))) = true.
Proof.
  wp_start (openGate hw_millis) w.
  wp_run; bool_facts; auto.
Qed.

Lemma openGate_when_open (w : World) :
  gateOpen (mem w) = true -> openGate hw_millis w = mkOutcome tt w [].
Proof.
  intros H. unfold openGate, bind, get, skip, ret. cbn [value after emitted].
  rewrite H. reflexivity.
Qed.

(** openGate is idempotent: called on an open gate it changes nothing,
    reads no clock and makes no hardware call, so calling it twice is
    calling it once; in particular a sensor that keeps reporting does not
    restart the LED or buzzer cycle. *)
Theorem openGate_idempotent (w : World) :
  (openGate hw_millis ;; openGate hw_millis) w = openGate hw_millis w.
Proof.
  unfold bind at 1.
  rewrite (openGate_when_open (after (openGate hw_millis w)))
    by apply openGate_opens.
  cbn [value after emitted]. rewrite app_nil_r.
  destruct (openGate hw_millis w) as [[] w' es]. reflexivity.
Qed.

(** ** How the hash key resolves *)

(** Whole minutes in milliseconds are even, also after wrapping, so they
    never read as SUSPEND_INFINITE. *)
Lemma minutes_never_infinite (a : Z) :
  slong (ulong (ulong a * MILLIS_PER_MINUTE)) <> SUSPEND_INFINITE.
Proof.
  intros H. apply (f_equal ulong) in H. rewrite ulong_slong in H.
  change (ulong SUSPEND_INFINITE) with 4294967295 in H.
  rewrite MILLIS_PER_MINUTE_value in H. unfold ulong at 1 2 in H.
  rewrite Zmod_mod in H.
  set (b := ulong a) in *.
  pose proof (Z.div_mod (b * 60000) (2 ^ 32) ltac:(discriminate)) as Hdm.
  rewrite H in Hdm.
  change (2 ^ 32) with 4294967296 in Hdm.
  generalize dependent (b * 60000 / 4294967296). intros q Hdm. lia.
Qed.

(** After the hash key, from any state whatever: no entry is in progress and
    the gate flag is as before; if a suspension is in force the alarm is
    silent, and if none is in force the alarm sounds when the gate is open
    and is as before when it is closed.  The suspension is the infinite one
    exactly when no entry was in progress, whatever number was entered, and
    then the suspension start time is 0. *)
Theorem processKeypadHash_resolution (w : World) :
  let g := mem w in
  let g' := mem (after (processKeypadHash hw_millis w)) in
  isUpdatingSuspendTime g' = false
  /\ gateOpen g' = gateOpen g
  /\ (totalSuspendTime g' <> SUSPEND_OFF -> alarmSounding g' = false)
  /\ (totalSuspendTime g' = SUSPEND_OFF ->
      alarmSounding g' = (gateOpen g || alarmSounding g))
  /\ (totalSuspendTime g' = SUSPEND_INFINITE <-> isUpdatingSuspendTime g = false)
  /\ (totalSuspendTime g' = SUSPEND_INFINITE -> suspendStartTime g' = 0).
Proof.
  intros g g'. subst g g'.
  pose proof (minutes_never_infinite (suspendTimeAccumulator (mem w))) as Hmin.
  wp_start (processKeypadHash hw_millis) w.
  wp_run; bool_facts;
    repeat match goal with
           | H : gateOpen _ = _ |- _ => rewrite H
           | H : alarmSounding _ = _ |- _ => rewrite H
           | H : isUpdatingSuspendTime _ = _ |- _ => rewrite H
           end;
    repeat split; intros; try reflexivity; try contradiction;
    try discriminate; try congruence.
Qed.

(** ** The buzzer and the alarm LED are not left on *)

Lemma tracks_ret {A} (J : list Event -> Machine -> Prop) (a : A) :
  tracks J (ret a).
Proof. intros w tr H. cbn. rewrite app_nil_r. exact H. Qed.

Lemma tracks_get (J : list Event -> Machine -> Prop) : tracks J get.
Proof. intros w tr H. cbn. rewrite app_nil_r. exact H. Qed.

Lemma tracks_hw_millis (J : list Event -> Machine -> Prop) : tracks J hw_millis.
Proof. intros w tr H. cbn. rewrite app_nil_r. exact H. Qed.

Lemma tracks_modify (J : list Event -> Machine -> Prop) (f : Machine -> Machine) :
  (forall tr g, J tr g -> J tr (f g)) -> tracks J (modify f).
Proof. intros Hf w tr H. cbn. rewrite app_nil_r. apply Hf, H. Qed.

Lemma tracks_emit (J : list Event -> Machine -> Prop) (e : Event) :
  (forall tr g, J tr g -> J (tr ++ [e]) g) -> tracks J (emit e).
Proof. intros He w tr H. cbn. apply He, H. Qed.

Lemma tracks_bind {A B} (J : list Event -> Machine -> Prop)
    (c : M A) (k : A -> M B) :
  tracks J c -> (forall a, tracks J (k a)) -> tracks J (bind c k).
Proof.
  intros Hc Hk w tr H. rewrite emitted_bind, after_bind, app_assoc.
  apply Hk, Hc, H.
Qed.

Lemma tracks_if {A} (J : list Event -> Machine -> Prop) (b : bool) (c1 c2 : M A) :
  tracks J c1 -> tracks J c2 -> tracks J (if b then c1 else c2).
Proof. destruct b; trivial. Qed.

Lemma last_write_app (pin : Z) (tr es : list Event) :
  last_write pin (tr ++ es) = fold_left (pin_step pin) es (last_write pin tr).
Proof. unfold last_write. apply fold_left_app. Qed.

(** The parts of [loop()] that write a pin or set its flag are proved
    whole; everything around them goes by the rules. *)
Ltac unfold_around_pins :=
  unfold loop, loop_upto_backlight, loop_gate, loop_keypad, loop_suspension,
    loop_display, loop_heartbeat, loop_backlight,
    processKeypadStar, processKeypadHash, processKeypadDigit,
    cancelSuspension, updateDisplay, writeLinesOnLCD,
    isInfiniteSuspension, isSuspended,
    switchLCDBacklightOff, switchLCDBacklightOn,
    boot, static_init, setup, DBGbegin, DBGprint, DBGprintln, skip.

Ltac tracks_leaf :=
  first
    [ apply tracks_ret
    | apply tracks_get
    | apply tracks_hw_millis
    | apply tracks_modify; intros ? ? H; exact H
    | apply tracks_emit;
      let H := fresh "H" in
      let Hf := fresh "Hf" in
      intros ? ? H Hf; rewrite last_write_app; cbn; exact (H Hf) ].

Ltac pin_cases :=
  unfold pin_off_unless in *; tidy;
  let Hf := fresh "Hf" in
  intros Hf; rewrite ?app_nil_r, ?last_write_app; cbn;
  bool_facts; try discriminate; try congruence; auto.

Ltac pin_proof c w :=
  unfold buzzer_safe, alarm_led_safe in *; wp_start c w; wp_run; pin_cases.

Lemma silenceAlarm_buzzer : tracks buzzer_safe silenceAlarm.
Proof. intros w tr H. pin_proof silenceAlarm w. Qed.

Lemma activateAlarm_buzzer : tracks buzzer_safe (activateAlarm hw_millis).
Proof. intros w tr H. pin_proof (activateAlarm hw_millis) w. Qed.

Lemma loop_buzzer_buzzer : tracks buzzer_safe (loop_buzzer hw_millis).
Proof. intros w tr H. pin_proof (loop_buzzer hw_millis) w. Qed.

Ltac buzzer_rules :=
  unfold buzzer_safe;
  repeat first
    [ apply silenceAlarm_buzzer
    | apply activateAlarm_buzzer
    | apply loop_buzzer_buzzer
    | apply tracks_bind; [| intro]
    | apply tracks_if
    | tracks_leaf ].

Lemma loop_buzzer_safe (pressed : bool) (key : ascii) :
  tracks buzzer_safe (loop hw_millis pressed key).
Proof.
  unfold_around_pins.
  unfold reset, openGate, showAlarmLED, hideAlarmLED, loop_alarm_led, digitalWrite.
  buzzer_rules.
Qed.

Lemma boot_buzzer_safe : tracks buzzer_safe boot.
Proof. unfold_around_pins. buzzer_rules. Qed.

Lemma passes_buzzer_safe (inputs : list (bool * ascii)) :
  tracks buzzer_safe (passes inputs).
Proof.
  induction inputs as [| [pressed key] rest IH]; cbn [passes].
  - apply tracks_ret.
  - apply tracks_bind; [apply loop_buzzer_safe | intro; exact IH].
Qed.

(** In every state the device can reach, with any clock, if the alarm is
    not sounding then the last write to the buzzer pin, if there was one,
    drove it low: the buzzer is never left on by a silenced or suspended
    alarm. *)
Theorem buzzer_off_when_silent (c : Clock) (inputs : list (bool * ascii)) :
  let r := (boot ;; passes inputs) (power_on c) in
  alarmSounding (mem (after r)) = false ->
  last_write ALARM_BUZZER_PIN (emitted r) <> Some HIGH.
Proof.
  intros r.
  assert (H : tracks buzzer_safe (boot ;; passes inputs)).
  { apply tracks_bind; [apply boot_buzzer_safe | intro; apply passes_buzzer_safe]. }
  apply (H (power_on c) []). intros _. discriminate.
Qed.

Lemma buzzer_off_when_silent_witness :
  let r := (boot ;; passes [(true, NO_KEY); (false, "#"%char)])
             (power_on (ticking 0)) in
  alarmSounding (mem (after r)) = false
  /\ In (DigitalWrite ALARM_BUZZER_PIN HIGH) (emitted r)
  /\ last_write ALARM_BUZZER_PIN (emitted r) <> Some HIGH.
Proof.
  split; [reflexivity | split; [vm_compute; auto 40 |]].
  exact (buzzer_off_when_silent (ticking 0)
           [(true, NO_KEY); (false, "#"%char)] eq_refl).
Defined.

Lemma openGate_alarm_led : tracks alarm_led_safe (openGate hw_millis).
Proof. intros w tr H. pin_proof (openGate hw_millis) w. Qed.

Lemma reset_alarm_led : tracks alarm_led_safe reset.
Proof. intros w tr H. pin_proof reset w. Qed.

Lemma loop_alarm_led_alarm_led : tracks alarm_led_safe (loop_alarm_led hw_millis).
Proof. intros w tr H. pin_proof (loop_alarm_led hw_millis) w. Qed.

Ltac alarm_led_rules :=
  unfold alarm_led_safe;
  repeat first
    [ apply openGate_alarm_led
    | apply reset_alarm_led
    | apply loop_alarm_led_alarm_led
    | apply tracks_bind; [| intro]
    | apply tracks_if
    | tracks_leaf ].

Lemma loop_alarm_led_safe (pressed : bool) (key : ascii) :
  tracks alarm_led_safe (loop hw_millis pressed key).
Proof.
  unfold_around_pins.
  unfold activateAlarm, silenceAlarm, loop_buzzer, digitalWrite.
  alarm_led_rules.
Qed.

Lemma boot_alarm_led_safe : tracks alarm_led_safe boot.
Proof. unfold_around_pins. alarm_led_rules. Qed.

Lemma passes_alarm_led_safe (inputs : list (bool * ascii)) :
  tracks alarm_led_safe (passes inputs).
Proof.
  induction inputs as [| [pressed key] rest IH]; cbn [passes].
  - apply tracks_ret.
  - apply tracks_bind; [apply loop_alarm_led_safe | intro; exact IH].
Qed.

(** In every state the device can reach, with any clock, if the gate flag
    is clear then the last write to the alarm LED pin, if there was one,
    drove it low: after a reset the LED does not stay lit. *)
Theorem alarm_led_off_when_gate_closed
    (c : Clock) (inputs : list (bool * ascii)) :
  let r := (boot ;; passes inputs) (power_on c) in
  gateOpen (mem (after r)) = false ->
  last_write ALARM_LED_PIN (emitted r) <> Some HIGH.
Proof.
  intros r.
  assert (H : tracks alarm_led_safe (boot ;; passes inputs)).
  { apply tracks_bind;
      [apply boot_alarm_led_safe | intro; apply passes_alarm_led_safe]. }
  apply (H (power_on c) []). intros _. discriminate.
Qed.

Lemma alarm_led_off_when_gate_closed_witness :
  let r := (boot ;; passes [(true, NO_KEY); (false, "*"%char)])
             (power_on (ticking 0)) in
  gateOpen (mem (after r)) = false
  /\ In (DigitalWrite ALARM_LED_PIN HIGH) (emitted r)
  /\ last_write ALARM_LED_PIN (emitted r) <> Some HIGH.
Proof.
  split; [reflexivity | split; [vm_compute; auto 40 |]].
  exact (alarm_led_off_when_gate_closed (ticking 0)
           [(true, NO_KEY); (false, "*"%char)] eq_refl).
Defined.

(** ** The alarm LED and the heartbeat LED *)

(** The alarm LED block of [loop()]: with the gate flag clear it does
    nothing at all.  With the gate flag set, whether or not the alarm is
    suspended, it compares the time since the LED reference with the 500 ms
    cycle: beyond it the reference is set to the clock and the pin is not
    written; up to it the pin is driven high when less than 250 ms have
    elapsed and low otherwise.  Each comparison uses the clock reading it
    takes. *)
Theorem alarm_led_pulse (w : World) :
  let start := alarmLEDPulseStartTime (mem w) in
  let t1 := value (hw_millis w) in
  let t2 := value (hw_millis (after (hw_millis w))) in
  let r := loop_alarm_led hw_millis w in
  (gateOpen (mem w) = false -> r = mkOutcome tt w [])
  /\ (gateOpen (mem w) = true ->
      (500 < ulong (t1 - start) ->
       emitted r = [] /\ alarmLEDPulseStartTime (mem (after r)) = t2)
      /\ (ulong (t1 - start) <= 500 -> ulong (t2 - start) < 250 ->
          emitted r = [DigitalWrite ALARM_LED_PIN HIGH]
          /\ mem (after r) = mem w)
      /\ (ulong (t1 - start) <= 500 -> 250 <= ulong (t2 - start) ->
          emitted r = [DigitalWrite ALARM_LED_PIN LOW]
          /\ mem (after r) = mem w)).
Proof.
  intros start t1 t2 r. subst start t1 t2 r.
  change (value (hw_millis (after (hw_millis w))))
    with (fst (read_clock (snd (read_clock (clk w))))).
  change (value (hw_millis w)) with (fst (read_clock (clk w))).
  assert (Hcycle : ALARM_LED_CYCLE_TIME = 500) by reflexivity.
  assert (Hon : ALARM_LED_ON_TIME = 250) by reflexivity.
  split.
  - intros Hg. unfold loop_alarm_led, bind, get, skip, ret.
    cbn [value after emitted]. rewrite Hg. reflexivity.
  - intros Hg. split; [| split];
      wp_start (loop_alarm_led hw_millis) w;
      wp_run; intros; bool_facts; try lia; split; reflexivity.
Qed.

(** The heartbeat block of [loop()]: under any suspension, finite or
    infinite, it drives the heartbeat LED high and does nothing else, not
    even read the clock.  With no suspension it compares the time since the
    heartbeat reference with the 8100 ms cycle: beyond it the reference is
    set to the clock and the pin is not written; up to it the pin is driven
    high when less than 100 ms have elapsed and low otherwise. *)
Theorem heartbeat_pulse (w : World) :
  let start := heartbeatLEDPulseStartTime (mem w) in
  let t1 := value (hw_millis w) in
  let t2 := value (hw_millis (after (hw_millis w))) in
  let r := loop_heartbeat hw_millis w in
  (totalSuspendTime (mem w) <> SUSPEND_OFF ->
   r = mkOutcome tt w [DigitalWrite HEARTBEAT_LED_PIN HIGH])
  /\ (totalSuspendTime (mem w) = SUSPEND_OFF ->
      (8100 < ulong (t1 - start) ->
       emitted r = [] /\ heartbeatLEDPulseStartTime (mem (after r)) = t2)
      /\ (ulong (t1 - start) <= 8100 -> ulong (t2 - start) < 100 ->
          emitted r = [DigitalWrite HEARTBEAT_LED_PIN HIGH]
          /\ mem (after r) = mem w)
      /\ (ulong (t1 - start) <= 8100 -> 100 <= ulong (t2 - start) ->
          emitted r = [DigitalWrite HEARTBEAT_LED_PIN LOW]
          /\ mem (after r) = mem w)).
Proof.
  intros start t1 t2 r. subst start t1 t2 r.
  change (value (hw_millis (after (hw_millis w))))
    with (fst (read_clock (snd (read_clock (clk w))))).
  change (value (hw_millis w)) with (fst (read_clock (clk w))).
  assert (Hcycle : HEARTBEAT_LED_CYCLE_TIME = 8100) by reflexivity.
  assert (Hon : HEARTBEAT_LED_ON_TIME = 100) by reflexivity.
  split.
  - intros Hs. apply Z.eqb_neq in Hs.
    unfold loop_heartbeat, isSuspended, bind, get, ret, digitalWrite, emit.
    cbn [value after emitted]. rewrite Hs. reflexivity.
  - intros Hs. split; [| split];
      wp_start (loop_heartbeat hw_millis) w;
      wp_run; intros; bool_facts; try lia; try contradiction;
      split; reflexivity.
Qed.

(** ** Suspension timeout across the clock's wrap-around *)

Lemma ulong_elapsed (s e : Z) :
  0 <= e < 2 ^ 32 -> ulong (ulong (s + e) - s) = e.
Proof.
  intros He. unfold ulong. rewrite Zminus_mod_idemp_l.
  replace (s + e - s) with e by ring. apply Z.mod_small, He.
Qed.

(** The suspension check measures real elapsed time also when [millis()]
    has wrapped around since the suspension started: if [e] ms (less than
    2^32) have passed, so that the clock reads [start + e] modulo 2^32, a
    finite suspension of [d] ms on an open gate is left alone when [e <= d]
    and is cancelled, the alarm sounding, when [e > d]. *)
Theorem suspension_timeout_across_rollover (w : World) (e : Z) :
  gateOpen (mem w) = true ->
  alarmSounding (mem w) = false ->
  timed (mem w) ->
  0 <= e < 2 ^ 32 ->
  value (hw_millis w) = ulong (suspendStartTime (mem w) + e) ->
  let d := ulong (totalSuspendTime (mem w)) in
  let r := loop_suspension hw_millis w in
  (e <= d -> mem (after r) = mem w /\ emitted r = [])
  /\ (d < e ->
      totalSuspendTime (mem (after r)) = SUSPEND_OFF
      /\ alarmSounding (mem (after r)) = true).
Proof.
  intros Hg Ha Ht He Hnow d r.
  destruct (loop_suspension_block w Hg Ha Ht) as [Hle Hgt].
  rewrite Hnow, ulong_elapsed in Hle, Hgt by exact He.
  split.
  - exact Hle.
  - intros Hd. destruct (Hgt Hd) as (H1 & H2 & _). split; assumption.
Qed.

Lemma suspension_timeout_across_rollover_witness :
  suspendStartTime (mem rollover_world) = 2 ^ 32 - 1000
  /\ value (hw_millis rollover_world) = 59001
  /\ ulong (totalSuspendTime (mem rollover_world)) = 60000
  /\ alarmSounding
       (mem (after (loop_suspension hw_millis rollover_world))) = true.
Proof.
  split; [reflexivity | split; [reflexivity | split; [reflexivity |]]].
  assert (Ht : timed (mem rollover_world)) by (split; vm_compute; discriminate).
  assert (He : 0 <= 60001 < 2 ^ 32) by lia.
  destruct (suspension_timeout_across_rollover rollover_world 60001
              eq_refl eq_refl Ht He eq_refl) as [_ H].
  apply H. vm_compute. reflexivity.
Defined.

(** ** What a pass of [loop()] never does *)

Lemma emits_only_ret {A} (P : Event -> Prop) (a : A) : emits_only P (ret a).
Proof. intros w. constructor. Qed.

Lemma emits_only_get (P : Event -> Prop) : emits_only P get.
Proof. intros w. constructor. Qed.

Lemma emits_only_hw_millis (P : Event -> Prop) : emits_only P hw_millis.
Proof. intros w. constructor. Qed.

Lemma emits_only_modify (P : Event -> Prop) (f : Machine -> Machine) :
  emits_only P (modify f).
Proof. intros w. constructor. Qed.

Lemma emits_only_emit (P : Event -> Prop) (e : Event) :
  P e -> emits_only P (emit e).
Proof. intros H w. repeat constructor. exact H. Qed.

Lemma emits_only_bind {A B} (P : Event -> Prop) (c : M A) (k : A -> M B) :
  emits_only P c -> (forall a, emits_only P (k a)) -> emits_only P (bind c k).
Proof.
  intros Hc Hk w. rewrite emitted_bind. apply Forall_app. split.
  - apply Hc.
  - apply Hk.
Qed.

Lemma emits_only_if {A} (P : Event -> Prop) (b : bool) (c1 c2 : M A) :
  emits_only P c1 -> emits_only P c2 -> emits_only P (if b then c1 else c2).
Proof. destruct b; trivial. Qed.

Ltac emits_only_rules leaf :=
  repeat first
    [ apply emits_only_bind; [| intro]
    | apply emits_only_if
    | apply emits_only_ret
    | apply emits_only_get
    | apply emits_only_hw_millis
    | apply emits_only_modify
    | apply emits_only_emit; leaf ].

Lemma setup_calls (w : World) :
  emitted (setup hw_millis w) =
  [ SerialBegin 9600; LcdInit; LcdClear; LcdBacklight;
    LcdSetCursor 0 0; LcdPrint "** Gate Alarm **";
    LcdSetCursor 0 1; LcdPrint "**   Welcome  **"; LcdBacklight;
    Delay 2000; SetDebounceTime 50;
    PinMode ALARM_LED_PIN OUTPUT; PinMode ALARM_BUZZER_PIN OUTPUT;
    PinMode HEARTBEAT_LED_PIN OUTPUT ].
Proof. reflexivity. Qed.

(** A pass of [loop()] is non-blocking and leaves the configuration alone:
    whatever the state, the inputs and the clock, it never calls [delay],
    [pinMode], [setDebounceTime], [lcd.init] or [Serial.begin], and every
    pin it writes is one that [setup()] has configured as an output. *)
Theorem loop_hardware_calls
    (w w0 : World) (pressed : bool) (key : ascii) :
  Forall (loop_call (emitted (setup hw_millis w0)))
         (emitted (loop hw_millis pressed key w)).
Proof.
  rewrite setup_calls.
  revert w. change (emits_only
    (loop_call
       [ SerialBegin 9600; LcdInit; LcdClear; LcdBacklight;
         LcdSetCursor 0 0; LcdPrint "** Gate Alarm **";
         LcdSetCursor 0 1; LcdPrint "**   Welcome  **"; LcdBacklight;
         Delay 2000; SetDebounceTime 50;
         PinMode ALARM_LED_PIN OUTPUT; PinMode ALARM_BUZZER_PIN OUTPUT;
         PinMode HEARTBEAT_LED_PIN OUTPUT ])
    (loop hw_millis pressed key)).
  unfold_sketch.
  emits_only_rules ltac:(cbn; auto 20).
Qed.

(** ** Redrawing the LCD *)

Ltac zdiv :=
  unfold ulong, slong, uint in *;
  try change (2 ^ 32) with 4294967296 in *;
  try change (2 ^ 31) with 2147483648 in *;
  try change (2 ^ 16) with 65536 in *;
  Z.to_euclidean_division_equations; lia.

Lemma writeLinesOnLCD_same (w : World) (line1 line2 : string) :
  oldLine1 (mem w) = line1 ->
  oldLine2 (mem w) = line2 ->
  writeLinesOnLCD hw_millis line1 line2 w = mkOutcome tt w [].
Proof.
  intros H1 H2. unfold writeLinesOnLCD, bind, get, skip, ret.
  cbn [value after emitted]. rewrite H1, H2, !String.eqb_refl. reflexivity.
Qed.

Lemma writeLinesOnLCD_caches (w : World) (line1 line2 : string) :
  oldLine1 (mem (after (writeLinesOnLCD hw_millis line1 line2 w))) = line1
  /\ oldLine2 (mem (after (writeLinesOnLCD hw_millis line1 line2 w))) = line2.
Proof.
  wp_start (writeLinesOnLCD hw_millis line1 line2) w.
  wp_run; bool_facts.
  - split; reflexivity.
  - split; symmetry; apply String.eqb_eq; assumption.
Qed.

Lemma centred_column (s : string) :
  centred s (uint (LCD_WIDTH - Z.of_nat (String.length s)) / 2).
Proof.
  unfold centred, LCD_WIDTH. cbv zeta.
  generalize (Nat2Z.is_nonneg (String.length s)).
  generalize (Z.of_nat (String.length s)). intros len Hlen.
  split; intros H; zdiv.
Qed.

(** writeLinesOnLCD redraws only on change.  Afterwards the two lines are
    cached, so that calling it again with the same lines does nothing: no
    hardware call, no clock reading, no change of state.  Called with the
    cached lines it does nothing either.  Called with a different line it
    switches the backlight on once, restarting the backlight timeout from
    the clock, clears the display and prints both lines, each centred. *)
Theorem writeLinesOnLCD_redraws_on_change (w : World) (line1 line2 : string) :
  let g := mem w in
  let r := writeLinesOnLCD hw_millis line1 line2 w in
  (oldLine1 (mem (after r)) = line1 /\ oldLine2 (mem (after r)) = line2)
  /\ writeLinesOnLCD hw_millis line1 line2 (after r) = mkOutcome tt (after r) []
  /\ (line1 = oldLine1 g /\ line2 = oldLine2 g -> r = mkOutcome tt w [])
  /\ (line1 <> oldLine1 g \/ line2 <> oldLine2 g ->
      exists c1 c2,
        emitted r = [ LcdBacklight; LcdClear;
                      LcdSetCursor c1 0; LcdPrint line1;
                      LcdSetCursor c2 1; LcdPrint line2 ]
        /\ centred line1 c1
        /\ centred line2 c2
        /\ lcdBacklightTimeoutStartTime (mem (after r)) = value (hw_millis w)).
Proof.
  intros g r. subst g r.
  pose proof (writeLinesOnLCD_caches w line1 line2) as Hc.
  split; [exact Hc |]. split; [| split].
  - apply writeLinesOnLCD_same; apply Hc.
  - intros [H1 H2]. apply writeLinesOnLCD_same; symmetry; assumption.
  - intros Hne. clear Hc.
    change (value (hw_millis w)) with (fst (read_clock (clk w))).
    wp_start (writeLinesOnLCD hw_millis line1 line2) w.
    wp_run.
    + eexists. eexists. split; [reflexivity |].
      split; [apply centred_column |]. split; [apply centred_column |].
      reflexivity.
    + bool_facts.
      repeat match goal with
             | H : String.eqb _ _ = true |- _ => apply String.eqb_eq in H
             end.
      destruct Hne as [Hne | Hne]; contradiction.
Qed.

(** ** The countdown shown during a finite suspension *)

Lemma two_digits_all : forallb two_digit_check (seq 0 60) = true.
Proof. vm_compute. reflexivity. Qed.

Lemma two_digits (n : Z) :
  0 <= n < 60 ->
  String.length
    (if (String.length (decimal n) =? 1)%nat
     then ("0" ++ decimal n)%string else decimal n) = 2%nat.
Proof.
  intros Hn.
  assert (Hk : In (Z.to_nat n) (seq 0 60)) by (apply in_seq; lia).
  pose proof (proj1 (forallb_forall _ _) two_digits_all _ Hk) as Hc.
  unfold two_digit_check in Hc. rewrite Z2Nat.id in Hc by lia.
  destruct (Z.to_nat n <? 10)%nat; apply Nat.eqb_eq in Hc; rewrite Hc.
  - cbn. rewrite Hc. reflexivity.
  - cbn [Nat.eqb]. exact Hc.
Qed.

Lemma countdown_remaining (total t start : Z) :
  ulong (t - start) <= ulong total ->
  ulong (slong (ulong (ulong (ulong total - t) + start))) =
  ulong total - ulong (t - start).
Proof. intros H. rewrite ulong_slong. zdiv. Qed.

Lemma countdown_minutes (r : Z) :
  0 <= r < 2 ^ 32 -> r / 60000 < 65536 ->
  uint (r / MILLIS_PER_MINUTE) = r / 60000.
Proof. rewrite MILLIS_PER_MINUTE_value. intros H1 H2. zdiv. Qed.

Lemma countdown_seconds (r : Z) :
  0 <= r < 2 ^ 32 -> r / 60000 < 65536 ->
  uint (uint (ulong (r - ulong (r / 60000 * MILLIS_PER_MINUTE))
              / MILLIS_PER_SECOND) mod SECONDS_PER_MINUTE)
  = r mod 60000 / 1000.
Proof.
  rewrite MILLIS_PER_MINUTE_value. unfold MILLIS_PER_SECOND, SECONDS_PER_MINUTE.
  intros H1 H2. zdiv.
Qed.

(** During a finite suspension that has not run out, with no entry in
    progress, updateDisplay leaves "Alarm paused for" on the first line and
    the time left on the second: with [d] the duration and [e] the time
    elapsed at the clock reading it takes, the whole minutes of [d - e], a
    colon, and the remaining whole seconds, below 60 and always as two
    characters.  This holds as long as the minutes fit 16 bits. *)
Theorem updateDisplay_countdown (w : World) :
  isUpdatingSuspendTime (mem w) = false ->
  timed (mem w) ->
  let d := ulong (totalSuspendTime (mem w)) in
  let e := ulong (value (hw_millis w) - suspendStartTime (mem w)) in
  e <= d ->
  (d - e) / 60000 < 65536 ->
  let g' := mem (after (updateDisplay hw_millis w)) in
  let secs := (d - e) mod 60000 / 1000 in
  oldLine1 g' = "Alarm paused for"%string
  /\ 0 <= secs < 60
  /\ exists ss : string,
       oldLine2 g' = (decimal ((d - e) / 60000) ++ ":" ++ ss)%string
       /\ String.length ss = 2%nat
       /\ (ss = decimal secs \/ ss = ("0" ++ decimal secs)%string).
Proof.
  intros Hed [Hoff Hinf] d e Hle Hfit g' secs.
  assert (Hr : 0 <= d - e < 2 ^ 32).
  { pose proof (ulong_range (totalSuspendTime (mem w))).
    pose proof (ulong_range (value (hw_millis w) - suspendStartTime (mem w))).
    unfold d, e in *. lia. }
  assert (Hsecs : 0 <= secs < 60) by (subst secs; zdiv).
  subst g' secs d e.
  change (value (hw_millis w)) with (fst (read_clock (clk w))) in *.
  wp_start (updateDisplay hw_millis) w.
  unfold updateDisplay, isSuspended, isInfiniteSuspension.
  tidy; known_tests; repeat wp_step;
    bool_facts; try contradiction.
  unfold wp.
  match goal with
  | |- context [writeLinesOnLCD hw_millis ?l1 ?l2 ?w1] =>
      destruct (writeLinesOnLCD_caches w1 l1 l2) as [H1 H2]
  end.
  rewrite H1, H2. clear H1 H2.
  rewrite countdown_remaining by exact Hle.
  rewrite (countdown_minutes _ Hr Hfit).
  rewrite (countdown_seconds _ Hr Hfit).
  split; [reflexivity |]. split; [exact Hsecs |].
  eexists. split; [reflexivity |]. split.
  - apply two_digits. exact Hsecs.
  - match goal with
    | |- context [if ?c then _ else _] => destruct c
    end; [right | left]; reflexivity.
Qed.

Lemma updateDisplay_countdown_witness :
  isUpdatingSuspendTime (mem countdown_world) = false
  /\ ulong (totalSuspendTime (mem countdown_world)) = 60000
  /\ ulong (value (hw_millis countdown_world)
            - suspendStartTime (mem countdown_world)) = 15500
  /\ oldLine1 (mem (after (updateDisplay hw_millis countdown_world)))
     = "Alarm paused for"%string
  /\ oldLine2 (mem (after (updateDisplay hw_millis countdown_world)))
     = "0:44"%string.
Proof.
  split; [reflexivity | split; [reflexivity | split; [reflexivity |]]].
  assert (Ht : timed (mem countdown_world)) by (split; vm_compute; discriminate).
  assert (Hle : ulong (value (hw_millis countdown_world)
                       - suspendStartTime (mem countdown_world))
                <= ulong (totalSuspendTime (mem countdown_world)))
    by (vm_compute; discriminate).
  assert (Hfit : (ulong (totalSuspendTime (mem countdown_world))
                  - ulong (value (hw_millis countdown_world)
                           - suspendStartTime (mem countdown_world)))
                 / 60000 < 65536)
    by (vm_compute; reflexivity).
  destruct (updateDisplay_countdown countdown_world eq_refl Ht Hle Hfit)
    as (H1 & _ & _).
  split; [exact H1 | vm_compute; reflexivity].
Defined.

(** ** The display is redrawn at most every 250 ms *)

Lemma display_cache_eq (g g' : Machine) :
  display_cache g = display_cache g' ->
  lastDisplayUpdate g = lastDisplayUpdate g'
  /\ oldLine1 g = oldLine1 g'
  /\ oldLine2 g = oldLine2 g'.
Proof.
  unfold display_cache. intros H. injection H as H1 H2 H3.
  repeat split; assumption.
Qed.

Lemma loop_before_display_quiet (pressed : bool) (key : ascii) :
  emits_only (fun e => ~ lcd_text e)
    (loop_gate hw_millis pressed ;;
     loop_keypad hw_millis key ;;
     loop_suspension hw_millis).
Proof. unfold_sketch. emits_only_rules ltac:(cbn; tauto). Qed.

Lemma loop_before_display_cache (pressed : bool) (key : ascii) v :
  keeps (fun g => display_cache g = v)
    (loop_gate hw_millis pressed ;;
     loop_keypad hw_millis key ;;
     loop_suspension hw_millis).
Proof. unfold_sketch. keeps_rules. Qed.

Lemma loop_after_display_quiet :
  emits_only (fun e => ~ lcd_text e)
    (loop_buzzer hw_millis ;;
     loop_alarm_led hw_millis ;;
     loop_heartbeat hw_millis ;;
     loop_backlight hw_millis).
Proof. unfold_sketch. emits_only_rules ltac:(cbn; tauto). Qed.

Lemma loop_after_display_cache v :
  keeps (fun g => display_cache g = v)
    (loop_buzzer hw_millis ;;
     loop_alarm_led hw_millis ;;
     loop_heartbeat hw_millis ;;
     loop_backlight hw_millis).
Proof. unfold_sketch. keeps_rules. Qed.

Lemma loop_display_idle (w : World) :
  ulong (value (hw_millis w) - lastDisplayUpdate (mem w)) <= DISPLAY_UPDATE_DELTA ->
  emitted (loop_display hw_millis w) = []
  /\ mem (after (loop_display hw_millis w)) = mem w.
Proof.
  change (value (hw_millis w)) with (fst (read_clock (clk w))).
  intros H. wp_start (loop_display hw_millis) w.
  unfold loop_display. tidy. repeat wp_step; bool_facts; try lia.
  split; reflexivity.
Qed.

(** [loop()] as the blocks before the display refresh, the refresh, and the
    blocks after it. *)
Lemma loop_around_display (pressed : bool) (key : ascii) (w : World) :
  let before := (loop_gate hw_millis pressed ;;
                 loop_keypad hw_millis key ;;
                 loop_suspension hw_millis) in
  let rest := (loop_buzzer hw_millis ;;
               loop_alarm_led hw_millis ;;
               loop_heartbeat hw_millis ;;
               loop_backlight hw_millis) in
  let w3 := after (before w) in
  let w4 := after (loop_display hw_millis w3) in
  emitted (loop hw_millis pressed key w) =
    emitted (before w) ++ emitted (loop_display hw_millis w3) ++ emitted (rest w4)
  /\ mem (after (loop hw_millis pressed key w)) = mem (after (rest w4)).
Proof.
  cbv zeta. unfold loop, loop_upto_backlight.
  repeat (rewrite ?emitted_bind, ?after_bind; cbv beta).
  rewrite <- !app_assoc. split; reflexivity.
Qed.

(** A pass of [loop()] whose display check finds no more than 250 ms gone
    since the last refresh leaves the LCD text alone: it makes no call to
    clear, position or print, whatever keys are pressed and whatever else
    the pass does, and the refresh time and the cached lines are as
    before. *)
Theorem display_refresh_period (w : World) (pressed : bool) (key : ascii) :
  let w3 := after ((loop_gate hw_millis pressed ;;
                    loop_keypad hw_millis key ;;
                    loop_suspension hw_millis) w) in
  ulong (value (hw_millis w3) - lastDisplayUpdate (mem w)) <= 250 ->
  let r := loop hw_millis pressed key w in
  Forall (fun e => ~ lcd_text e) (emitted r)
  /\ display_cache (mem (after r)) = display_cache (mem w).
Proof.
  intros w3 Hcond r.
  destruct (loop_around_display pressed key w) as [Hem Hmem].
  cbv zeta in Hem, Hmem. fold w3 in Hem, Hmem.
  pose proof (loop_before_display_cache pressed key _ w eq_refl) as Hc3.
  fold w3 in Hc3.
  assert (Hlast : lastDisplayUpdate (mem w3) = lastDisplayUpdate (mem w)).
  { exact (proj1 (display_cache_eq _ _ Hc3)). }
  rewrite <- Hlast in Hcond.
  destruct (loop_display_idle w3 Hcond) as [He4 Hm4].
  subst r. rewrite Hem, Hmem, He4. split.
  - apply Forall_app. split; [apply loop_before_display_quiet |].
    cbn [app]. apply loop_after_display_quiet.
  - rewrite (loop_after_display_cache _ _ eq_refl), Hm4. exact Hc3.
Qed.

Lemma display_refresh_period_witness :
  let w := at_time 100 alarmed_world in
  lastDisplayUpdate (mem w) = 0
  /\ Forall (fun e => ~ lcd_text e) (emitted (loop hw_millis false "#" w))
  /\ lastDisplayUpdate (mem (after (loop hw_millis false "#" w))) = 0.
Proof.
  split; [reflexivity |].
  assert (Hcond :
    ulong (value (hw_millis
             (after ((loop_gate hw_millis false ;;
                      loop_keypad hw_millis "#" ;;
                      loop_suspension hw_millis) (at_time 100 alarmed_world))))
           - lastDisplayUpdate (mem (at_time 100 alarmed_world))) <= 250)
    by (vm_compute; discriminate).
  destruct (display_refresh_period (at_time 100 alarmed_world) false "#" Hcond)
    as [H1 H2].
  split; [exact H1 |].
  destruct (display_cache_eq _ _ H2) as (H & _ & _).
  etransitivity; [exact H | reflexivity].
Defined.

(** ** An infinite suspension carries no start time *)

Ltac unstamped_cases :=
  unfold infinite_unstamped in *; tidy; intros; bool_facts;
  try discriminate; try congruence; auto.

Lemma processKeypadHash_unstamped :
  keeps infinite_unstamped (processKeypadHash hw_millis).
Proof.
  intros w H.
  pose proof (minutes_never_infinite (suspendTimeAccumulator (mem w))) as Hmin.
  wp_start (processKeypadHash hw_millis) w.
  wp_run; unstamped_cases; contradiction.
Qed.

Lemma processKeypadStar_unstamped : keeps infinite_unstamped processKeypadStar.
Proof.
  intros w H. wp_start processKeypadStar w. wp_run; unstamped_cases.
Qed.

Lemma loop_suspension_unstamped :
  keeps infinite_unstamped (loop_suspension hw_millis).
Proof.
  intros w H. wp_start (loop_suspension hw_millis) w. wp_run; unstamped_cases.
Qed.

Lemma infinite_unstamped_view (g g' : Machine) :
  alarm_view g = alarm_view g' -> infinite_unstamped g -> infinite_unstamped g'.
Proof.
  intros Hv. destruct (alarm_view_eq _ _ Hv) as (_ & _ & Ht & Hs & _).
  unfold infinite_unstamped. rewrite Ht, Hs. trivial.
Qed.

Lemma loop_unstamped (pressed : bool) (key : ascii) :
  keeps infinite_unstamped (loop hw_millis pressed key).
Proof.
  unfold loop, loop_upto_backlight.
  apply keeps_bind;
    [| intro; apply keeps_of_frame;
         [apply loop_backlight_frame | apply infinite_unstamped_view]].
  apply keeps_bind; [unfold_sketch; keeps_rules | intro].
  apply keeps_bind; [| intro].
  { unfold loop_keypad.
    repeat first [apply keeps_if | apply keeps_ret].
    - unfold_sketch. keeps_rules.
    - apply processKeypadHash_unstamped.
    - apply processKeypadStar_unstamped. }
  apply keeps_bind; [apply loop_suspension_unstamped | intro].
  apply keeps_bind;
    [apply keeps_of_frame;
       [apply loop_display_frame | apply infinite_unstamped_view]
    | intro].
  apply keeps_bind;
    [apply keeps_of_frame;
       [apply loop_buzzer_frame | apply infinite_unstamped_view]
    | intro].
  apply keeps_bind;
    [apply keeps_of_frame;
       [apply loop_alarm_led_frame | apply infinite_unstamped_view]
    | intro].
  apply keeps_of_frame;
    [apply loop_heartbeat_frame | apply infinite_unstamped_view].
Qed.

Lemma passes_unstamped (inputs : list (bool * ascii)) :
  keeps infinite_unstamped (passes inputs).
Proof.
  induction inputs as [| [pressed key] rest IH]; cbn [passes].
  - apply keeps_ret.
  - apply keeps_bind; [apply loop_unstamped | intro; exact IH].
Qed.

Lemma boot_unstamped : keeps infinite_unstamped boot.
Proof. unfold boot, static_init, setup. unfold_sketch. keeps_rules. Qed.

(** In every state the device can reach, with any clock, an infinite
    suspension has its start time at 0: only the hash key pressed with no
    entry in progress sets it, and it clears the start time. *)
Theorem infinite_suspension_unstamped (c : Clock) (inputs : list (bool * ascii)) :
  let g := mem (after ((boot ;; passes inputs) (power_on c))) in
  totalSuspendTime g = SUSPEND_INFINITE ->
  suspendStartTime g = 0.
Proof.
  intros g.
  assert (H : keeps infinite_unstamped (boot ;; passes inputs)).
  { apply keeps_bind; [apply boot_unstamped | intro; apply passes_unstamped]. }
  apply (H (power_on c)). intros Hinf. discriminate Hinf.
Qed.

Lemma infinite_suspension_unstamped_witness :
  let g := mem (after ((boot ;; passes [(true, "1"%char); (false, "#"%char);
                                         (false, "#"%char)])
                         (power_on (ticking 0)))) in
  totalSuspendTime g = SUSPEND_INFINITE /\ suspendStartTime g = 0.
Proof.
  split; [reflexivity |].
  exact (infinite_suspension_unstamped (ticking 0)
           [(true, "1"%char); (false, "#"%char); (false, "#"%char)] eq_refl).
Defined.

(** The same is not true of the suspension being off: cancelling a timed
    suspension by entering 0 leaves the old start time in place. *)
Example zero_entry_keeps_start_time :
  let g := mem (after ((boot ;; passes [(false, "1"%char); (false, "#"%char);
                                         (false, "0"%char); (false, "#"%char)])
                         (power_on (ticking 3000)))) in
  totalSuspendTime g = SUSPEND_OFF /\ suspendStartTime g <> 0.
Proof. vm_compute. split; [reflexivity | discriminate]. Qed.

(** ** The heartbeat LED during a suspension *)

Lemma loop_heartbeat_suspended (w : World) :
  totalSuspendTime (mem w) <> SUSPEND_OFF ->
  loop_heartbeat hw_millis w = mkOutcome tt w [DigitalWrite HEARTBEAT_LED_PIN HIGH].
Proof.
  intros Hs. apply Z.eqb_neq in Hs.
  unfold loop_heartbeat, isSuspended, bind, get, ret, digitalWrite, emit.
  cbn [value after emitted]. rewrite Hs. reflexivity.
Qed.

(** [loop()] as the blocks before the heartbeat, the heartbeat, and the
    backlight check. *)
Lemma loop_around_heartbeat (pressed : bool) (key : ascii) (w : World) :
  let before := (loop_gate hw_millis pressed ;;
                 loop_keypad hw_millis key ;;
                 loop_suspension hw_millis ;;
                 loop_display hw_millis ;;
                 loop_buzzer hw_millis ;;
                 loop_alarm_led hw_millis) in
  let w7 := after (before w) in
  let w8 := after (loop_heartbeat hw_millis w7) in
  emitted (loop hw_millis pressed key w) =
    emitted (before w) ++ emitted (loop_heartbeat hw_millis w7)
    ++ emitted (loop_backlight hw_millis w8)
  /\ after (loop hw_millis pressed key w) = after (loop_backlight hw_millis w8).
Proof.
  cbv zeta. unfold loop, loop_upto_backlight.
  repeat (rewrite ?emitted_bind, ?after_bind; cbv beta).
  rewrite <- !app_assoc. split; reflexivity.
Qed.

(** A pass of [loop()] that ends with a suspension in force, finite or
    infinite, leaves the heartbeat LED lit: the last write to its pin in
    that pass drives it high. *)
Theorem heartbeat_lit_while_suspended
    (w : World) (pressed : bool) (key : ascii) :
  let r := loop hw_millis pressed key w in
  totalSuspendTime (mem (after r)) <> SUSPEND_OFF ->
  last_write HEARTBEAT_LED_PIN (emitted r) = Some HIGH.
Proof.
  intros r Hs. subst r.
  destruct (loop_around_heartbeat pressed key w) as [Hem Haf].
  cbv zeta in Hem, Haf. rewrite Hem. rewrite Haf in Hs.
  match type of Haf with
  | _ = after (loop_backlight hw_millis (after (loop_heartbeat hw_millis ?w0))) =>
      set (w7 := w0) in *
  end.
  assert (Hs7 : totalSuspendTime (mem w7) <> SUSPEND_OFF).
  { destruct (alarm_view_eq _ _
                (frame_eq (loop_backlight hw_millis)
                   (after (loop_heartbeat hw_millis w7)) loop_backlight_frame))
      as (_ & _ & H1 & _).
    destruct (alarm_view_eq _ _
                (frame_eq (loop_heartbeat hw_millis) w7 loop_heartbeat_frame))
      as (_ & _ & H2 & _).
    rewrite <- H2, <- H1. exact Hs. }
  rewrite (loop_heartbeat_suspended w7 Hs7). cbn [emitted after].
  pose proof (loop_backlight_run w7) as Hrun. cbv zeta in Hrun.
  rewrite !last_write_app.
  destruct (backlight_due (value (hw_millis w7)) (mem w7));
    destruct Hrun as [He _]; rewrite He; reflexivity.
Qed.

Lemma heartbeat_lit_while_suspended_witness :
  let r := loop hw_millis false NO_KEY countdown_world in
  totalSuspendTime (mem (after r)) = 60000
  /\ last_write HEARTBEAT_LED_PIN (emitted r) = Some HIGH.
Proof.
  split; [reflexivity |].
  apply (heartbeat_lit_while_suspended countdown_world false NO_KEY).
  vm_compute. discriminate.
Defined.
